(** * NTHU-Scheduler-Plugin: the CustomScheduler plugin

    A shallow embedding of [pkg/plugins/scheduler.go] and the
    properties of its three entry points:

    - [PreFilter], the gang admission gate;
    - [Score], the per-node raw score;
    - [NormalizeScore], the rescaling of the raw scores.

    Go's [int64] is modelled as [Z] with the two's complement wrap-around
    written out ([Int64.wrap]); Go strings are [string]s (byte sequences);
    [pod.Labels] is a [gmap string string]; the slice handed to
    [NormalizeScore] is a list updated by index.  The two collaborators
    reached through [framework.Handle] (the pod lister and the node-info
    snapshot) are fields of the [Handle] record, and every call to one of
    them is recorded in a call log, so that "is not consulted" can be said.
    Calls to [log.Printf] are not modelled. *)

From Stdlib Require Import ZArith String Ascii Lia.
From stdpp Require Import base option list gmap strings.

Local Open Scope Z_scope.

(** ** Signed 64-bit arithmetic *)

Module Int64.

Definition MaxInt64 : Z := 9223372036854775807.
Definition MinInt64 : Z := -9223372036854775808.
Definition modulus : Z := 18446744073709551616.

Definition in_range (z : Z) : Prop := MinInt64 <= z <= MaxInt64.

(** The representative of [z] modulo 2^64 in [MinInt64, MaxInt64]. *)
Definition wrap (z : Z) : Z := (z - MinInt64) mod modulus + MinInt64.

Definition add (a b : Z) : Z := wrap (a + b).
Definition sub (a b : Z) : Z := wrap (a - b).
Definition mul (a b : Z) : Z := wrap (a * b).
Definition neg (a : Z) : Z := wrap (- a).

(** Go's [/] on integers truncates toward zero and panics on a zero
    divisor ([None]); [MinInt64 / -1] wraps. *)
Definition quo (a b : Z) : option Z :=
  if b =? 0 then None else Some (wrap (a ÷ b)).

End Int64.

(** ** A state monad with failure

    [Exec S A] is a computation over a state [S] that either panics
    ([None]) or returns a value and a new state. *)

Definition Exec (S A : Type) : Type := S -> option (A * S).

Definition exec_ret {S A} (a : A) : Exec S A := fun s => Some (a, s).

Definition exec_bind {S A B} (f : A -> Exec S B) (c : Exec S A) : Exec S B :=
  fun s => match c s with
           | Some (a, s') => f a s'
           | None => None
           end.

#[global] Instance Exec_ret S : MRet (Exec S) := fun A => @exec_ret S A.
#[global] Instance Exec_bind S : MBind (Exec S) := fun A B => @exec_bind S A B.

(** ** Values returned with an error

    Go's pair [(value, err)]: [Ok] when [err == nil], and otherwise the
    message of the error. *)

Inductive result (A : Type) : Type :=
  | Ok (a : A)
  | Err (e : string).
Arguments Ok {A} a.
Arguments Err {A} e.

(** ** strconv.Atoi

    [strconv.Atoi] of the Go standard library on a 64-bit platform: an
    optional sign, then one or more decimal digits, and the value must fit
    [int]; anything else is an error. *)

Module strconv.

Definition digit_of (c : ascii) : option Z :=
  let n := Z.of_N (N_of_ascii c) in
  if (48 <=? n) && (n <=? 57) then Some (n - 48) else None.

Fixpoint parse_digits (s : string) (acc : Z) : option Z :=
  match s with
  | EmptyString => Some acc
  | String c s' =>
      match digit_of c with
      | Some d => parse_digits s' (acc * 10 + d)
      | None => None
      end
  end.

Definition ErrSyntax : string := "invalid syntax".
Definition ErrRange : string := "value out of range".

Definition Atoi (s : string) : result Z :=
  match s with
  | EmptyString => Err ErrSyntax
  | String c rest =>
      let neg := Ascii.eqb c "-" in
      let body := if neg || Ascii.eqb c "+" then rest else s in
      match body with
      | EmptyString => Err ErrSyntax
      | _ =>
          match parse_digits body 0 with
          | None => Err ErrSyntax
          | Some n =>
              let v := if neg then - n else n in
              if (Int64.MinInt64 <=? v) && (v <=? Int64.MaxInt64)
              then Ok v else Err ErrRange
          end
      end
  end.

End strconv.

(** ** Data model *)

Module v1.

Record Pod : Type := {
  Name : string;
  Labels : gmap string string;
}.

End v1.

Module framework.

(** [framework.Resource], of which only [Memory] is read. *)
Record Resource : Type := { Memory : Z }.
Record NodeInfo : Type := { Allocatable : Resource }.

Inductive Code : Type :=
  | Success
  | Error
  | Unschedulable
  | UnschedulableAndUnresolvable
  | Wait
  | Skip.

Record Status : Type := NewStatus {
  StatusCode : Code;
  Reason : string;
}.

Inductive PreFilterResult : Type := .

Record NodeScore : Type := {
  Name : string;
  Score : Z;
}.

Abbreviation NodeScoreList := (list NodeScore) (only parsing).

(** Modelled from the spec: [framework.MinNodeScore] and
    [framework.MaxNodeScore] are constants of the host framework
    ([k8s.io/kubernetes/pkg/scheduler/framework]), declared outside this
    repository; the specification's examples normalize with the bounds
    [0, 100]. *)
Definition MinNodeScore : Z := 0.
Definition MaxNodeScore : Z := 100.

(** The two collaborators behind [framework.Handle]: the pod lister
    ([SharedInformerFactory().Core().V1().Pods().Lister().List]) and the
    node-info snapshot ([SnapshotSharedLister().NodeInfos().Get]). *)
Record Handle : Type := {
  PodLister : gmap string string -> result (list v1.Pod);
  NodeInfos : string -> result NodeInfo;
}.

Inductive Call : Type :=
  | ListCall (selector : gmap string string)
  | GetCall (nodeName : string).

Definition List (h : Handle) (selector : gmap string string)
  : Exec (list Call) (result (list v1.Pod)) :=
  fun calls => Some (PodLister h selector, calls ++ [ListCall selector]).

Definition Get (h : Handle) (nodeName : string)
  : Exec (list Call) (result NodeInfo) :=
  fun calls => Some (NodeInfos h nodeName, calls ++ [GetCall nodeName]).

End framework.

Record CustomScheduler : Type := {
  handle : framework.Handle;
  scoreMode : string;
}.

Definition groupNameLabel : string := "podGroup".
Definition minAvailableLabel : string := "minAvailable".
Definition leastMode : string := "Least".
Definition mostMode : string := "Most".

(** ** New

    [decoded] is [None] when [obj == nil], and otherwise the [Mode] field
    of the arguments after [json.Unmarshal] (what the decoder left there
    when it fails, the empty string if it wrote nothing: the error is
    only printed).  The type assertion on [obj] is not modelled. *)
Definition New (decoded : option string) (h : framework.Handle)
  : result CustomScheduler :=
  match decoded with
  | None => Ok {| handle := h; scoreMode := leastMode |}
  | Some mode =>
      if negb (String.eqb mode leastMode) && negb (String.eqb mode mostMode)
      then Err ("invalid mode, got " +:+ mode)
      else Ok {| handle := h; scoreMode := mode |}
  end.

(** ** PreFilter *)

Definition len {A} (l : list A) : Z := Z.of_nat (length l).

Definition PreFilter (cs : CustomScheduler) (pod : v1.Pod)
  : Exec (list framework.Call) (option framework.PreFilterResult * framework.Status) :=
  match v1.Labels pod !! groupNameLabel, v1.Labels pod !! minAvailableLabel with
  | Some group, Some minAvailableStr =>
      match strconv.Atoi minAvailableStr with
      | Err _ =>
          mret (None, framework.NewStatus framework.Error "Invalid minAvailable value.")
      | Ok minAvailable =>
          let selector : gmap string string := {[ groupNameLabel := group ]} in
          r ← framework.List (handle cs) selector;
          match r with
          | Err err =>
              mret (None, framework.NewStatus framework.Error
                            ("Error listing pods.: " +:+ err +:+ "."))
          | Ok pods =>
              if len pods <? minAvailable
              then mret (None, framework.NewStatus framework.Unschedulable
                                 "Not enough pods in the group.")
              else mret (None, framework.NewStatus framework.Success "")
          end
      end
  | _, _ => mret (None, framework.NewStatus framework.Error "Invalid label.")
  end.

(** ** Score *)

Definition Score (cs : CustomScheduler) (pod : v1.Pod) (nodeName : string)
  : Exec (list framework.Call) (Z * framework.Status) :=
  r ← framework.Get (handle cs) nodeName;
  match r with
  | Err err =>
      mret (0, framework.NewStatus framework.Error
                 ("Error getting node info: " +:+ err))
  | Ok nodeInfo =>
      let memory := framework.Memory (framework.Allocatable nodeInfo) in
      let score :=
        if String.eqb (scoreMode cs) leastMode then Int64.neg memory
        else if String.eqb (scoreMode cs) mostMode then memory
        else 0 in
      mret (score, framework.NewStatus framework.Success "")
  end.

(** ** NormalizeScore

    [scores] is a slice: the callee writes into the caller's backing
    array.  [Slice] is that array together with the indices stored to,
    oldest first. *)

Record Slice : Type := {
  elems : framework.NodeScoreList;
  stores : list nat;
}.

Definition lift {S A} (o : option A) : Exec S A :=
  fun s => match o with Some a => Some (a, s) | None => None end.

(** [scores[i]]; an index out of range panics. *)
Definition load (i : nat) : Exec Slice framework.NodeScore :=
  fun m => match elems m !! i with
           | Some ns => Some (ns, m)
           | None => None
           end.

(** [scores[i].Score = v]; an index out of range panics. *)
Definition store_Score (i : nat) (v : Z) : Exec Slice unit :=
  fun m => match elems m !! i with
           | Some ns =>
               let ns' := {| framework.Name := framework.Name ns;
                             framework.Score := v |} in
               Some (tt, {| elems := <[i := ns']> (elems m);
                            stores := stores m ++ [i] |})
           | None => None
           end.

(** [for i := range scores { body }], from index [i] for [n] rounds. *)
Fixpoint for_range (body : nat -> Exec Slice unit) (i n : nat) : Exec Slice unit :=
  match n with
  | O => mret tt
  | S n' => _ ← body i; for_range body (S i) n'
  end.

(** The first loop: the running minimum and maximum. *)
Definition min_max_step (acc : Z * Z) (score : framework.NodeScore) : Z * Z :=
  let '(minScore, maxScore) := acc in
  let minScore :=
    if framework.Score score <? minScore then framework.Score score else minScore in
  let maxScore :=
    if framework.Score score >? maxScore then framework.Score score else maxScore in
  (minScore, maxScore).

Definition min_max (scores : framework.NodeScoreList) : Z * Z :=
  foldl min_max_step (Int64.MaxInt64, Int64.MinInt64) scores.

Definition NormalizeScore (cs : CustomScheduler) (pod : v1.Pod)
  : Exec Slice framework.Status :=
  fun m =>
    let scores := elems m in
    let '(minScore, maxScore) := min_max scores in
    let rangeScore := Int64.sub maxScore minScore in
    let width := Int64.sub framework.MaxNodeScore framework.MinNodeScore in
    let body : nat -> Exec Slice unit :=
      if rangeScore =? 0 then
        fun i =>
          q ← lift (Int64.quo width 2);
          store_Score i (Int64.add framework.MinNodeScore q)
      else
        fun i =>
          ns ← load i;
          q ← lift (Int64.quo
                      (Int64.mul (Int64.sub (framework.Score ns) minScore) width)
                      rangeScore);
          store_Score i (Int64.add framework.MinNodeScore q)
    in
    (_ ← for_range body 0 (length scores);
     mret (framework.NewStatus framework.Success "")) m.

(** The value stored in the degenerate branch, and the value stored for a
    raw score [s] in the general branch. *)
Definition midpoint : Z :=
  Int64.add framework.MinNodeScore
    (Int64.wrap
       (Int64.sub framework.MaxNodeScore framework.MinNodeScore ÷ 2)).

Definition rescale (minScore rangeScore s : Z) : Z :=
  Int64.add framework.MinNodeScore
    (Int64.wrap
       (Int64.mul (Int64.sub s minScore)
          (Int64.sub framework.MaxNodeScore framework.MinNodeScore)
        ÷ rangeScore)).

Definition with_Score (f : Z -> Z) (ns : framework.NodeScore) : framework.NodeScore :=
  {| framework.Name := framework.Name ns;
     framework.Score := f (framework.Score ns) |}.

(** What [NormalizeScore] stores for the raw score [s] of a vector. *)
Definition normalized (scores : framework.NodeScoreList) (s : Z) : Z :=
  let '(minScore, maxScore) := min_max scores in
  let rangeScore := Int64.sub maxScore minScore in
  if rangeScore =? 0 then midpoint else rescale minScore rangeScore s.

(** The spread of the raw scores, times the width of the target range,
    fits [int64]. *)
Definition no_overflow (scores : framework.NodeScoreList) : Prop :=
  let '(minScore, maxScore) := min_max scores in
  (maxScore - minScore) * (framework.MaxNodeScore - framework.MinNodeScore)
  <= Int64.MaxInt64.

(** A vector of raw scores as the host collects it: every entry holds
    what [Score] returns for its node, found with a non-negative
    allocatable memory. *)
Definition scored (cs : CustomScheduler) (pod : v1.Pod)
    (scores : framework.NodeScoreList) : Prop :=
  forall ns, ns ∈ scores ->
    exists nodeInfo,
      framework.NodeInfos (handle cs) (framework.Name ns) = Ok nodeInfo
      /\ 0 <= framework.Memory (framework.Allocatable nodeInfo) <= Int64.MaxInt64
      /\ Score cs pod (framework.Name ns) []
         = Some (framework.Score ns, framework.NewStatus framework.Success "",
                 [framework.GetCall (framework.Name ns)]).

(** ** Fixtures for the concrete runs *)

Definition node (name : string) (score : Z) : framework.NodeScore :=
  {| framework.Name := name; framework.Score := score |}.

Definition labelled (group minAvailable : string) : v1.Pod :=
  {| v1.Name := "pod-0";
     v1.Labels := {[ groupNameLabel := group; minAvailableLabel := minAvailable ]} |}.

(** A host that lists [pods] for every selector and knows the nodes of
    [nodes] with their allocatable memory. *)
Definition host (pods : list v1.Pod) (nodes : gmap string Z) : framework.Handle :=
  {| framework.PodLister := fun _ => Ok pods;
     framework.NodeInfos := fun nodeName =>
       match nodes !! nodeName with
       | Some memory =>
           Ok {| framework.Allocatable := {| framework.Memory := memory |} |}
       | None => Err "node not found"
       end |}.

(** A host whose lister fails with [err] and which knows no node. *)
Definition broken_host (err : string) : framework.Handle :=
  {| framework.PodLister := fun _ => Err err;
     framework.NodeInfos := fun _ => Err "node not found" |}.

(** * Properties *)

(** ** Signed 64-bit arithmetic *)

Section Int64Facts.
Import Int64.

Lemma wrap_in_range z : in_range (wrap z).
Proof.
  unfold in_range, wrap, MinInt64, MaxInt64, modulus.
  pose proof (Z.mod_pos_bound (z - -9223372036854775808) 18446744073709551616).
  lia.
Qed.

Lemma wrap_small z : in_range z -> wrap z = z.
Proof.
  unfold in_range, wrap, MinInt64, MaxInt64, modulus. intros Hz.
  rewrite Z.mod_small; lia.
Qed.

Lemma neg_exact m : MinInt64 < m <= MaxInt64 -> neg m = - m.
Proof.
  intros Hm. apply wrap_small. unfold in_range, MinInt64, MaxInt64 in *. lia.
Qed.

Lemma neg_MinInt64 : neg MinInt64 = MinInt64.
Proof. reflexivity. Qed.

Lemma sub_diag v : sub v v = 0.
Proof. unfold sub. rewrite Z.sub_diag. reflexivity. Qed.

End Int64Facts.

(** ** The loops of [NormalizeScore] *)

Section Loops.

Variable body : nat -> Exec Slice unit.
Variable f : Z -> Z.

(** On every index in range, [body] is the store of [f] of the score it
    finds there. *)
Hypothesis body_store : forall i m ns,
  elems m !! i = Some ns ->
  body i m = store_Score i (f (framework.Score ns)) m.

Lemma for_range_store post : forall pre ws,
  for_range body (length pre) (length post)
    {| elems := pre ++ post; stores := ws |}
  = Some (tt, {| elems := pre ++ map (with_Score f) post;
                 stores := ws ++ seq (length pre) (length post) |}).
Proof.
  induction post as [|ns post IH]; intros pre ws; simpl.
  - rewrite !app_nil_r. reflexivity.
  - unfold mbind, Exec_bind, exec_bind.
    assert (Hl : (pre ++ ns :: post) !! length pre = Some ns)
      by (by apply list_lookup_middle).
    rewrite (body_store _ _ ns) by exact Hl.
    unfold store_Score; cbn [elems stores]. rewrite Hl.
    assert (Hi : <[length pre := with_Score f ns]> (pre ++ ns :: post)
                 = (pre ++ [with_Score f ns]) ++ post).
    { rewrite insert_app_r_alt by lia.
      rewrite Nat.sub_diag. simpl. by rewrite <- app_assoc. }
    unfold with_Score in Hi at 1. rewrite Hi.
    specialize (IH (pre ++ [with_Score f ns]) (ws ++ [length pre])).
    rewrite length_app in IH. simpl in IH.
    rewrite Nat.add_1_r in IH. rewrite IH.
    by rewrite <- !app_assoc.
Qed.

Lemma for_range_store_all scores ws :
  for_range body 0 (length scores) {| elems := scores; stores := ws |}
  = Some (tt, {| elems := map (with_Score f) scores;
                 stores := ws ++ seq 0 (length scores) |}).
Proof. exact (for_range_store scores [] ws). Qed.

End Loops.

Lemma NormalizeScore_run cs pod scores ws :
  NormalizeScore cs pod {| elems := scores; stores := ws |}
  = Some (framework.NewStatus framework.Success "",
          {| elems := map (with_Score (normalized scores)) scores;
             stores := ws ++ seq 0 (length scores) |}).
Proof.
  unfold NormalizeScore, normalized; cbn [elems].
  destruct (min_max scores) as [minScore maxScore].
  unfold mbind, Exec_bind, exec_bind.
  destruct (Z.eqb_spec (Int64.sub maxScore minScore) 0) as [Hz|Hnz].
  - rewrite (for_range_store_all _ (fun _ => midpoint)); [reflexivity|].
    reflexivity.
  - rewrite (for_range_store_all _ (rescale minScore (Int64.sub maxScore minScore)));
      [reflexivity|].
    intros i m ns Hl. unfold load, lift, Int64.quo.
    unfold mbind, Exec_bind, exec_bind. rewrite Hl.
    destruct (Z.eqb_spec (Int64.sub maxScore minScore) 0); [contradiction|].
    reflexivity.
Qed.

(** ** Construction *)

Lemma New_mode decoded h cs :
  New decoded h = Ok cs -> scoreMode cs = leastMode \/ scoreMode cs = mostMode.
Proof.
  unfold New. destruct decoded as [mode|].
  - destruct (String.eqb_spec mode leastMode) as [->|_]; simpl.
    + intros [= <-]. by left.
    + destruct (String.eqb_spec mode mostMode) as [->|_]; simpl; [|done].
      intros [= <-]. by right.
  - intros [= <-]. by left.
Qed.

(** ** strconv.Atoi *)

Lemma Atoi_in_range s m : strconv.Atoi s = Ok m -> Int64.in_range m.
Proof.
  unfold strconv.Atoi. intros H.
  repeat case_match; try discriminate.
  all: injection H as <-.
  all: match goal with
       | Hb : _ && _ = true |- _ =>
           apply andb_prop in Hb as [?%Z.leb_le ?%Z.leb_le]
       end.
  all: by split.
Qed.

(** ** PreFilter *)

Section PreFilterFacts.

Variable cs : CustomScheduler.
Variable pod : v1.Pod.
Variable calls : list framework.Call.

(** The run of [PreFilter] once both labels are found and the minimum
    is parsed: the lister is called once, with the selector of the
    group, and its answer decides. *)
Lemma PreFilter_parsed group minAvailableStr m :
  v1.Labels pod !! groupNameLabel = Some group ->
  v1.Labels pod !! minAvailableLabel = Some minAvailableStr ->
  strconv.Atoi minAvailableStr = Ok m ->
  PreFilter cs pod calls =
  Some (None,
        match framework.PodLister (handle cs) {[ groupNameLabel := group ]} with
        | Err err =>
            framework.NewStatus framework.Error
              ("Error listing pods.: " +:+ err +:+ ".")
        | Ok pods =>
            if len pods <? m
            then framework.NewStatus framework.Unschedulable
                   "Not enough pods in the group."
            else framework.NewStatus framework.Success ""
        end,
        calls ++ [framework.ListCall {[ groupNameLabel := group ]}]).
Proof.
  intros Hg Hm Ha. unfold PreFilter. rewrite Hg, Hm, Ha.
  unfold mbind, Exec_bind, exec_bind, framework.List.
  destruct (framework.PodLister _ _) as [pods|err]; [|reflexivity].
  destruct (len pods <? m); reflexivity.
Qed.

(** C1: with both labels present, the minimum parsed as [m] and the
    listing for the group label returning [pods], [PreFilter] returns
    Success if and only if the number of pods is at least [m], and
    Unschedulable when it is smaller; for [m = 0] it admits. *)
Theorem PreFilter_admits_iff group minAvailableStr m pods :
  v1.Labels pod !! groupNameLabel = Some group ->
  v1.Labels pod !! minAvailableLabel = Some minAvailableStr ->
  strconv.Atoi minAvailableStr = Ok m ->
  framework.PodLister (handle cs) {[ groupNameLabel := group ]} = Ok pods ->
  exists st,
    PreFilter cs pod calls =
      Some (None, st, calls ++ [framework.ListCall {[ groupNameLabel := group ]}])
    /\ (framework.StatusCode st = framework.Success <-> len pods >= m)
    /\ (len pods < m -> framework.StatusCode st = framework.Unschedulable)
    /\ (m = 0 -> framework.StatusCode st = framework.Success).
Proof.
  intros Hg Hm Ha Hl.
  rewrite (PreFilter_parsed group minAvailableStr m Hg Hm Ha), Hl.
  eexists; split; [reflexivity|].
  assert (0 <= len pods) by (unfold len; lia).
  destruct (Z.ltb_spec (len pods) m); simpl;
    repeat split; intros; try done; lia.
Qed.

(** C7: a unit without the group-name label, or without the
    minimum-available label, or whose minimum-available value
    [strconv.Atoi] rejects, gets the code Error (so not Unschedulable),
    and the call log is unchanged: the lister was not called. *)
Theorem PreFilter_configuration_error :
  v1.Labels pod !! groupNameLabel = None
  \/ v1.Labels pod !! minAvailableLabel = None
  \/ (exists minAvailableStr e,
        v1.Labels pod !! minAvailableLabel = Some minAvailableStr
        /\ strconv.Atoi minAvailableStr = Err e) ->
  exists st,
    PreFilter cs pod calls = Some (None, st, calls)
    /\ framework.StatusCode st = framework.Error
    /\ framework.StatusCode st <> framework.Unschedulable.
Proof.
  unfold PreFilter.
  intros [Hg | [Hm | (minAvailableStr & e & Hm & Ha)]].
  - rewrite Hg. by eexists.
  - rewrite Hm. destruct (v1.Labels pod !! groupNameLabel); by eexists.
  - rewrite Hm, Ha. destruct (v1.Labels pod !! groupNameLabel); by eexists.
Qed.

(** C8, as the code has it: a negative minimum is not a configuration
    error.  With the group-name label present and the minimum parsed as
    a negative [m], [PreFilter] calls the lister; when the listing
    succeeds the unit is admitted whatever the count, and a failing
    listing gives Error; the code is never Unschedulable. *)
Theorem PreFilter_negative_minimum group minAvailableStr m :
  v1.Labels pod !! groupNameLabel = Some group ->
  v1.Labels pod !! minAvailableLabel = Some minAvailableStr ->
  strconv.Atoi minAvailableStr = Ok m ->
  m < 0 ->
  exists st,
    PreFilter cs pod calls =
      Some (None, st, calls ++ [framework.ListCall {[ groupNameLabel := group ]}])
    /\ framework.StatusCode st <> framework.Unschedulable
    /\ (forall pods,
          framework.PodLister (handle cs) {[ groupNameLabel := group ]} = Ok pods ->
          st = framework.NewStatus framework.Success "")
    /\ (forall err,
          framework.PodLister (handle cs) {[ groupNameLabel := group ]} = Err err ->
          framework.StatusCode st = framework.Error).
Proof.
  intros Hg Hm Ha Hneg.
  rewrite (PreFilter_parsed group minAvailableStr m Hg Hm Ha).
  eexists; split; [reflexivity|].
  destruct (framework.PodLister _ _) as [pods|err].
  - assert (0 <= len pods) by (unfold len; lia).
    destruct (Z.ltb_spec (len pods) m); [lia|].
    repeat split; intros; done.
  - repeat split; intros; done.
Qed.

End PreFilterFacts.

Lemma PreFilter_admits_iff_witness :
  exists st,
    PreFilter {| handle := host [labelled "g" "2"; labelled "g" "2"] ∅;
                 scoreMode := leastMode |}
      (labelled "g" "2") [] =
      Some (None, st, [] ++ [framework.ListCall {[ groupNameLabel := "g" ]}])
    /\ (framework.StatusCode st = framework.Success <->
        len [labelled "g" "2"; labelled "g" "2"] >= 2)
    /\ (len [labelled "g" "2"; labelled "g" "2"] < 2 ->
        framework.StatusCode st = framework.Unschedulable)
    /\ (2 = 0 -> framework.StatusCode st = framework.Success).
Proof.
  apply (PreFilter_admits_iff _ (labelled "g" "2") [] "g" "2" 2); reflexivity.
Defined.

Lemma PreFilter_configuration_error_witness :
  (exists st,
     PreFilter {| handle := host [] ∅; scoreMode := leastMode |}
       {| v1.Name := "pod-0"; v1.Labels := {[ minAvailableLabel := "2" ]} |} []
     = Some (None, st, [])
     /\ framework.StatusCode st = framework.Error
     /\ framework.StatusCode st <> framework.Unschedulable)
  /\ (exists st,
        PreFilter {| handle := host [] ∅; scoreMode := leastMode |}
          {| v1.Name := "pod-0"; v1.Labels := {[ groupNameLabel := "g" ]} |} []
        = Some (None, st, [])
        /\ framework.StatusCode st = framework.Error
        /\ framework.StatusCode st <> framework.Unschedulable)
  /\ (exists st,
        PreFilter {| handle := host [] ∅; scoreMode := leastMode |}
          (labelled "g" "two") [] = Some (None, st, [])
        /\ framework.StatusCode st = framework.Error
        /\ framework.StatusCode st <> framework.Unschedulable).
Proof.
  split; [|split]; apply PreFilter_configuration_error.
  - left. reflexivity.
  - right; left. reflexivity.
  - right; right. exists "two", strconv.ErrSyntax. split; reflexivity.
Defined.

Lemma PreFilter_negative_minimum_witness :
  exists st,
    PreFilter {| handle := host [] ∅; scoreMode := leastMode |}
      (labelled "g" "-1") [] =
      Some (None, st, [] ++ [framework.ListCall {[ groupNameLabel := "g" ]}])
    /\ framework.StatusCode st <> framework.Unschedulable
    /\ (forall pods,
          framework.PodLister (host [] ∅) {[ groupNameLabel := "g" ]} = Ok pods ->
          st = framework.NewStatus framework.Success "")
    /\ (forall err,
          framework.PodLister (host [] ∅) {[ groupNameLabel := "g" ]} = Err err ->
          framework.StatusCode st = framework.Error).
Proof.
  apply (PreFilter_negative_minimum
           {| handle := host [] ∅; scoreMode := leastMode |}
           (labelled "g" "-1") [] "g" "-1" (-1));
    [reflexivity | reflexivity | reflexivity | lia].
Defined.

(** C8, as stated, fails: the unit below carries [minAvailable = "-1"],
    its group has no visible member, and it is admitted. *)
Lemma PreFilter_negative_minimum_admitted :
  strconv.Atoi "-1" = Ok (-1)
  /\ PreFilter {| handle := host [] ∅; scoreMode := leastMode |}
       (labelled "g" "-1") []
     = Some (None, framework.NewStatus framework.Success "",
             [framework.ListCall {[ groupNameLabel := "g" ]}])
  /\ framework.Success <> framework.Error.
Proof.
  split; [reflexivity|]. split; [vm_compute; reflexivity | discriminate].
Qed.

(** ** Score *)

Section ScoreFacts.

Variable cs : CustomScheduler.
Variable pod : v1.Pod.

Lemma Score_found nodeName nodeInfo calls :
  framework.NodeInfos (handle cs) nodeName = Ok nodeInfo ->
  Score cs pod nodeName calls =
  Some (if String.eqb (scoreMode cs) leastMode
        then Int64.neg (framework.Memory (framework.Allocatable nodeInfo))
        else if String.eqb (scoreMode cs) mostMode
             then framework.Memory (framework.Allocatable nodeInfo)
             else 0,
        framework.NewStatus framework.Success "",
        calls ++ [framework.GetCall nodeName]).
Proof.
  intros Hget. unfold Score, mbind, Exec_bind, exec_bind, framework.Get.
  by rewrite Hget.
Qed.

(** C5: when the lookup of the node succeeds with allocatable memory
    [m], [Score] returns [-m] in mode "Least" and [m] in mode "Most",
    with the status Success.  [-m] is the negation of Go's [int64]
    ([Int64.neg]); it is the integer [-m] for every [m] other than
    [MinInt64]. *)
Theorem Score_by_mode nodeName nodeInfo calls :
  framework.NodeInfos (handle cs) nodeName = Ok nodeInfo ->
  Int64.in_range (framework.Memory (framework.Allocatable nodeInfo)) ->
  let m := framework.Memory (framework.Allocatable nodeInfo) in
  (scoreMode cs = leastMode ->
     Score cs pod nodeName calls =
       Some (Int64.neg m, framework.NewStatus framework.Success "",
             calls ++ [framework.GetCall nodeName])
     /\ (m <> Int64.MinInt64 -> Int64.neg m = - m))
  /\ (scoreMode cs = mostMode ->
        Score cs pod nodeName calls =
          Some (m, framework.NewStatus framework.Success "",
                calls ++ [framework.GetCall nodeName])).
Proof.
  intros Hget Hm m. rewrite (Score_found _ _ _ Hget). fold m.
  split; intros ->; [split|]; try reflexivity.
  intros Hne. apply neg_exact. unfold Int64.in_range in Hm. lia.
Qed.

(** C6, as the code has it: for allocatable memories [m1 < m2], the
    score of mode "Most" is strictly smaller for [m1], and the score of
    mode "Least" is strictly greater for [m1] provided [m1] is not
    [MinInt64], whose negation wraps. *)
Theorem Score_order n1 n2 nodeInfo1 nodeInfo2 calls1 calls2 :
  framework.NodeInfos (handle cs) n1 = Ok nodeInfo1 ->
  framework.NodeInfos (handle cs) n2 = Ok nodeInfo2 ->
  let m1 := framework.Memory (framework.Allocatable nodeInfo1) in
  let m2 := framework.Memory (framework.Allocatable nodeInfo2) in
  Int64.in_range m1 -> Int64.in_range m2 ->
  m1 < m2 ->
  exists s1 s2,
    Score cs pod n1 calls1 =
      Some (s1, framework.NewStatus framework.Success "",
            calls1 ++ [framework.GetCall n1])
    /\ Score cs pod n2 calls2 =
         Some (s2, framework.NewStatus framework.Success "",
               calls2 ++ [framework.GetCall n2])
    /\ (scoreMode cs = leastMode -> Int64.MinInt64 < m1 -> s1 > s2)
    /\ (scoreMode cs = mostMode -> s1 < s2).
Proof.
  intros Hget1 Hget2 m1 m2 Hm1 Hm2 Hlt.
  rewrite (Score_found _ _ _ Hget1), (Score_found _ _ _ Hget2).
  fold m1 m2. do 2 eexists. do 2 (split; [reflexivity|]).
  unfold Int64.in_range in *.
  split; intros ->; simpl.
  - intros Hmin. rewrite !neg_exact by lia. lia.
  - exact Hlt.
Qed.

End ScoreFacts.

Lemma Score_by_mode_witness :
  Score {| handle := host [] {[ "node-a" := 1000 ]}; scoreMode := leastMode |}
    (labelled "g" "1") "node-a" [] =
    Some (-1000, framework.NewStatus framework.Success "",
          [framework.GetCall "node-a"])
  /\ Score {| handle := host [] {[ "node-a" := 1000 ]}; scoreMode := mostMode |}
       (labelled "g" "1") "node-a" [] =
       Some (1000, framework.NewStatus framework.Success "",
             [framework.GetCall "node-a"]).
Proof.
  assert (Hr : Int64.in_range 1000)
    by (unfold Int64.in_range, Int64.MinInt64, Int64.MaxInt64; lia).
  split.
  - refine (proj1 (proj1 (Score_by_mode
             {| handle := host [] {[ "node-a" := 1000 ]}; scoreMode := leastMode |}
             (labelled "g" "1") "node-a"
             {| framework.Allocatable := {| framework.Memory := 1000 |} |} []
             _ Hr) _)); reflexivity.
  - refine (proj2 (Score_by_mode
             {| handle := host [] {[ "node-a" := 1000 ]}; scoreMode := mostMode |}
             (labelled "g" "1") "node-a"
             {| framework.Allocatable := {| framework.Memory := 1000 |} |} []
             _ Hr) _); reflexivity.
Defined.

Lemma Score_order_witness :
  exists s1 s2,
    Score {| handle := host [] {[ "node-a" := 1000; "node-b" := 2000 ]};
             scoreMode := leastMode |}
      (labelled "g" "1") "node-a" [] =
      Some (s1, framework.NewStatus framework.Success "",
            [] ++ [framework.GetCall "node-a"])
    /\ Score {| handle := host [] {[ "node-a" := 1000; "node-b" := 2000 ]};
                scoreMode := leastMode |}
         (labelled "g" "1") "node-b" [] =
         Some (s2, framework.NewStatus framework.Success "",
               [] ++ [framework.GetCall "node-b"])
    /\ (leastMode = leastMode -> Int64.MinInt64 < 1000 -> s1 > s2)
    /\ (leastMode = mostMode -> s1 < s2).
Proof.
  apply (Score_order
           {| handle := host [] {[ "node-a" := 1000; "node-b" := 2000 ]};
              scoreMode := leastMode |}
           (labelled "g" "1") "node-a" "node-b"
           {| framework.Allocatable := {| framework.Memory := 1000 |} |}
           {| framework.Allocatable := {| framework.Memory := 2000 |} |} [] []).
  - reflexivity.
  - reflexivity.
  - unfold Int64.in_range, Int64.MinInt64, Int64.MaxInt64; simpl; lia.
  - unfold Int64.in_range, Int64.MinInt64, Int64.MaxInt64; simpl; lia.
  - simpl; lia.
Defined.

(** C6, as stated, fails at [m1 = MinInt64]: in mode "Least" the node
    with the smaller memory gets the smaller score. *)
Lemma Score_least_MinInt64 :
  Score {| handle := host [] {[ "node-a" := Int64.MinInt64; "node-b" := 0 ]};
           scoreMode := leastMode |}
    (labelled "g" "1") "node-a" []
  = Some (Int64.MinInt64, framework.NewStatus framework.Success "",
          [framework.GetCall "node-a"])
  /\ Score {| handle := host [] {[ "node-a" := Int64.MinInt64; "node-b" := 0 ]};
              scoreMode := leastMode |}
       (labelled "g" "1") "node-b" []
     = Some (0, framework.NewStatus framework.Success "",
             [framework.GetCall "node-b"])
  /\ Int64.MinInt64 < 0
  /\ ~ (Int64.MinInt64 > 0).
Proof.
  split; [vm_compute; reflexivity|]. split; [vm_compute; reflexivity|].
  unfold Int64.MinInt64. lia.
Qed.

(** ** NormalizeScore *)

Section NormalizeScoreFacts.

Variable cs : CustomScheduler.
Variable pod : v1.Pod.

(** C9: on an empty vector [NormalizeScore] stores nothing (the log of
    stores is unchanged), leaves the vector empty and returns Success. *)
Theorem NormalizeScore_empty ws :
  NormalizeScore cs pod {| elems := []; stores := ws |}
  = Some (framework.NewStatus framework.Success "",
          {| elems := []; stores := ws |}).
Proof. reflexivity. Qed.

(** C10: [NormalizeScore] returns on every vector, keeps its length and
    keeps the node name at every index; the stores go to the [Score]
    field of the indices [0 .. len-1], once each. *)
Theorem NormalizeScore_frame m :
  exists st m',
    NormalizeScore cs pod m = Some (st, m')
    /\ length (elems m') = length (elems m)
    /\ (forall i,
          framework.Name <$> elems m' !! i = framework.Name <$> elems m !! i)
    /\ stores m' = stores m ++ seq 0 (length (elems m)).
Proof.
  destruct m as [scores ws]. rewrite NormalizeScore_run.
  do 2 eexists. split; [reflexivity|]. cbn [elems stores].
  split; [by rewrite length_map|]. split; [|reflexivity].
  intros i. rewrite list_lookup_fmap. by destruct (scores !! i).
Qed.

(** The first loop on a vector whose entries all carry [v]. *)
Lemma min_max_const v scores :
  Int64.in_range v ->
  scores <> [] ->
  Forall (fun ns => framework.Score ns = v) scores ->
  min_max scores = (v, v).
Proof.
  intros Hv Hne Hall. unfold min_max.
  destruct Hall as [|ns scores Hns Hall]; [done|]. clear Hne.
  assert (Hfirst : min_max_step (Int64.MaxInt64, Int64.MinInt64) ns = (v, v)).
  { unfold min_max_step. rewrite Hns.
    unfold Int64.in_range, Int64.MinInt64, Int64.MaxInt64 in *.
    destruct (Z.ltb_spec v 9223372036854775807);
      destruct (Z.gtb_spec v (-9223372036854775808)); f_equal; lia. }
  change (foldl min_max_step
            (min_max_step (Int64.MaxInt64, Int64.MinInt64) ns) scores = (v, v)).
  rewrite Hfirst. clear Hfirst Hns.
  induction Hall as [|ns' scores Hns' _ IH]; [reflexivity|].
  change (foldl min_max_step (min_max_step (v, v) ns') scores = (v, v)).
  replace (min_max_step (v, v) ns') with (v, v); [exact IH|].
  unfold min_max_step. rewrite Hns', Z.ltb_irrefl.
  by destruct (Z.gtb_spec v v); [lia|].
Qed.

(** C3: on a non-empty vector whose entries all carry the same raw
    score, [NormalizeScore] returns Success and leaves at every index
    the midpoint [MinNodeScore + (MaxNodeScore - MinNodeScore) / 2],
    the division truncating. *)
Theorem NormalizeScore_degenerate v scores ws :
  Int64.in_range v ->
  scores <> [] ->
  Forall (fun ns => framework.Score ns = v) scores ->
  NormalizeScore cs pod {| elems := scores; stores := ws |}
  = Some (framework.NewStatus framework.Success "",
          {| elems :=
               map (with_Score
                      (fun _ => framework.MinNodeScore
                                + (framework.MaxNodeScore - framework.MinNodeScore) ÷ 2))
                 scores;
             stores := ws ++ seq 0 (length scores) |}).
Proof.
  intros Hv Hne Hall. rewrite NormalizeScore_run.
  unfold normalized. rewrite (min_max_const v scores Hv Hne Hall).
  rewrite sub_diag. reflexivity.
Qed.

End NormalizeScoreFacts.

Lemma NormalizeScore_degenerate_witness :
  NormalizeScore {| handle := host [] ∅; scoreMode := mostMode |}
    (labelled "g" "1")
    {| elems := [node "node-a" 7; node "node-b" 7]; stores := [] |}
  = Some (framework.NewStatus framework.Success "",
          {| elems := [node "node-a" 50; node "node-b" 50];
             stores := [0%nat; 1%nat] |}).
Proof.
  apply (NormalizeScore_degenerate
           {| handle := host [] ∅; scoreMode := mostMode |}
           (labelled "g" "1") 7 [node "node-a" 7; node "node-b" 7] []).
  - unfold Int64.in_range, Int64.MinInt64, Int64.MaxInt64; lia.
  - discriminate.
  - repeat constructor.
Defined.

(** C2 fails on the code: with the raw scores 0 and 10^17 (mode "Most",
    allocatable memories of 0 and 10^17 bytes) the product
    [(10^17 - 0) * 100] exceeds [MaxInt64] and wraps, and the second score
    becomes -84, below [MinNodeScore]. *)
Theorem NormalizeScore_overflow_out_of_bounds cs pod :
  NormalizeScore cs pod
    {| elems := [node "node-a" 0; node "node-b" 100000000000000000];
       stores := [] |}
  = Some (framework.NewStatus framework.Success "",
          {| elems := [node "node-a" 0; node "node-b" (-84)];
             stores := [0%nat; 1%nat] |})
  /\ Int64.in_range 100000000000000000
  /\ ~ (framework.MinNodeScore <= -84 <= framework.MaxNodeScore).
Proof.
  split; [vm_compute; reflexivity|].
  unfold Int64.in_range, Int64.MinInt64, Int64.MaxInt64,
    framework.MinNodeScore, framework.MaxNodeScore. lia.
Qed.

(** C4 fails on the code, by the same wrap-around: with the raw scores
    -10^17 and 0 (mode "Least", allocatable memories of 10^17 and 0
    bytes) the vector is not degenerate, the first raw score is the
    smaller one, and it gets the greater normalized score. *)
Theorem NormalizeScore_overflow_order cs pod :
  NormalizeScore cs pod
    {| elems := [node "node-a" (-100000000000000000); node "node-b" 0];
       stores := [] |}
  = Some (framework.NewStatus framework.Success "",
          {| elems := [node "node-a" 0; node "node-b" (-84)];
             stores := [0%nat; 1%nat] |})
  /\ Int64.in_range (-100000000000000000)
  /\ -100000000000000000 < 0
  /\ ~ (0 <= -84).
Proof.
  split; [vm_compute; reflexivity|].
  unfold Int64.in_range, Int64.MinInt64, Int64.MaxInt64. lia.
Qed.

(** ** NormalizeScore away from the wrap-around

    The two runs above are the only way the rescaling goes wrong: when
    the spread of the raw scores times the width of the target range fits
    [int64], the normalized scores are within the bounds and keep the
    order of the raw scores. *)

Section NoOverflow.

Variable cs : CustomScheduler.
Variable pod : v1.Pod.

Lemma foldl_min_max scores : forall a b mn mx,
  foldl min_max_step (a, b) scores = (mn, mx) ->
  mn <= a /\ b <= mx
  /\ Forall (fun ns => mn <= framework.Score ns <= mx) scores
  /\ (mn = a \/ Exists (fun ns => framework.Score ns = mn) scores)
  /\ (mx = b \/ Exists (fun ns => framework.Score ns = mx) scores).
Proof.
  induction scores as [|ns scores IH]; intros a b mn mx H.
  - injection H as <- <-. repeat split; try lia; auto.
  - change (foldl min_max_step (min_max_step (a, b) ns) scores = (mn, mx)) in H.
    destruct (min_max_step (a, b) ns) as [a' b'] eqn:E.
    unfold min_max_step in E. injection E as Ea Eb.
    apply IH in H as (H1 & H2 & H3 & H4 & H5).
    assert (Ha : a' <= a /\ a' <= framework.Score ns
                 /\ (a' = a \/ a' = framework.Score ns)).
    { destruct (Z.ltb_spec (framework.Score ns) a); lia. }
    assert (Hb : b <= b' /\ framework.Score ns <= b'
                 /\ (b' = b \/ b' = framework.Score ns)).
    { destruct (Z.gtb_spec (framework.Score ns) b); lia. }
    clear Ea Eb. repeat split; try lia.
    + constructor; [lia|exact H3].
    + destruct H4 as [->|H4]; [|by right; apply Exists_cons_tl].
      destruct Ha as (_ & _ & [->| ->]); [by left|by right; apply Exists_cons_hd].
    + destruct H5 as [->|H5]; [|by right; apply Exists_cons_tl].
      destruct Hb as (_ & _ & [->| ->]); [by left|by right; apply Exists_cons_hd].
Qed.

Lemma min_max_bounds scores mn mx :
  Forall (fun ns => Int64.in_range (framework.Score ns)) scores ->
  min_max scores = (mn, mx) ->
  Forall (fun ns => mn <= framework.Score ns <= mx) scores
  /\ Int64.in_range mn /\ Int64.in_range mx.
Proof.
  intros Hr H. apply foldl_min_max in H as (H1 & H2 & H3 & H4 & H5).
  split; [exact H3|].
  rewrite Forall_forall in Hr.
  split.
  - destruct H4 as [->|(ns & Hin & <-)%Exists_exists]; [|by apply Hr].
    unfold Int64.in_range, Int64.MinInt64, Int64.MaxInt64; lia.
  - destruct H5 as [->|(ns & Hin & <-)%Exists_exists]; [|by apply Hr].
    unfold Int64.in_range, Int64.MinInt64, Int64.MaxInt64; lia.
Qed.

(** Without wrap-around the general branch is the exact quotient. *)
Lemma rescale_exact mn mx s :
  Int64.in_range mn -> Int64.in_range mx ->
  mn <= s <= mx -> mn < mx ->
  (mx - mn) * (framework.MaxNodeScore - framework.MinNodeScore) <= Int64.MaxInt64 ->
  rescale mn (Int64.sub mx mn) s = (s - mn) * 100 / (mx - mn)
  /\ 0 <= (s - mn) * 100 / (mx - mn) <= 100.
Proof.
  unfold rescale, Int64.add, Int64.sub, Int64.mul,
    framework.MaxNodeScore, framework.MinNodeScore.
  unfold Int64.in_range, Int64.MinInt64, Int64.MaxInt64.
  intros Hmn Hmx Hs Hlt Hfit.
  assert (Hq : 0 <= (s - mn) * 100 / (mx - mn) <= 100).
  { split.
    - apply Z.div_pos; lia.
    - apply Z.div_le_upper_bound; lia. }
  split; [|exact Hq].
  rewrite (wrap_small (100 - 0)) by (unfold Int64.in_range, Int64.MinInt64, Int64.MaxInt64; lia).
  rewrite (wrap_small (s - mn)) by (unfold Int64.in_range, Int64.MinInt64, Int64.MaxInt64; lia).
  rewrite (wrap_small (mx - mn)) by (unfold Int64.in_range, Int64.MinInt64, Int64.MaxInt64; lia).
  rewrite (wrap_small ((s - mn) * (100 - 0)))
    by (unfold Int64.in_range, Int64.MinInt64, Int64.MaxInt64; nia).
  replace (100 - 0) with 100 by lia.
  rewrite Z.quot_div_nonneg by lia.
  rewrite (wrap_small ((s - mn) * 100 / (mx - mn)))
    by (unfold Int64.in_range, Int64.MinInt64, Int64.MaxInt64; lia).
  rewrite Z.add_0_l. apply wrap_small.
  unfold Int64.in_range, Int64.MinInt64, Int64.MaxInt64; lia.
Qed.

Lemma normalized_exact scores mn mx s :
  Forall (fun ns => Int64.in_range (framework.Score ns)) scores ->
  no_overflow scores ->
  min_max scores = (mn, mx) ->
  mn <= s <= mx ->
  normalized scores s = (if mx - mn =? 0 then 50 else (s - mn) * 100 / (mx - mn))
  /\ framework.MinNodeScore <= normalized scores s <= framework.MaxNodeScore.
Proof.
  intros Hr Hfit Hmm Hs. unfold normalized, no_overflow in *.
  rewrite Hmm in *.
  destruct (min_max_bounds scores mn mx Hr Hmm) as (_ & Hmn & Hmx).
  assert (Hsub : Int64.sub mx mn = mx - mn).
  { apply wrap_small.
    unfold Int64.in_range, Int64.MinInt64, Int64.MaxInt64,
      framework.MaxNodeScore, framework.MinNodeScore in *. lia. }
  rewrite Hsub.
  destruct (Z.eqb_spec (mx - mn) 0) as [Hz|Hnz].
  - split; [reflexivity|].
    unfold framework.MaxNodeScore, framework.MinNodeScore.
    change midpoint with 50. lia.
  - destruct (rescale_exact mn mx s Hmn Hmx Hs ltac:(lia) Hfit) as [He Hq].
    rewrite Hsub in He. rewrite He.
    split; [reflexivity|exact Hq].
Qed.

(** The bounds, away from the wrap-around. *)
Theorem NormalizeScore_bounds_no_overflow scores ws :
  Forall (fun ns => Int64.in_range (framework.Score ns)) scores ->
  no_overflow scores ->
  exists m',
    NormalizeScore cs pod {| elems := scores; stores := ws |}
    = Some (framework.NewStatus framework.Success "", m')
    /\ Forall (fun ns => framework.MinNodeScore <= framework.Score ns
                         <= framework.MaxNodeScore) (elems m').
Proof.
  intros Hr Hfit. rewrite NormalizeScore_run.
  eexists; split; [reflexivity|]. cbn [elems].
  destruct (min_max scores) as [mn mx] eqn:Hmm.
  destruct (min_max_bounds scores mn mx Hr Hmm) as (Hall & _ & _).
  rewrite Forall_forall. intros ns' Hin.
  change (map (with_Score (normalized scores)) scores)
    with (with_Score (normalized scores) <$> scores) in Hin.
  apply list_elem_of_fmap in Hin as (ns & -> & Hin).
  rewrite Forall_forall in Hall.
  apply (normalized_exact scores mn mx _ Hr Hfit Hmm (Hall ns Hin)).
Qed.

(** The order, away from the wrap-around. *)
Theorem NormalizeScore_order_no_overflow scores ws i j nsi nsj :
  Forall (fun ns => Int64.in_range (framework.Score ns)) scores ->
  no_overflow scores ->
  scores !! i = Some nsi ->
  scores !! j = Some nsj ->
  framework.Score nsi < framework.Score nsj ->
  exists m' nsi' nsj',
    NormalizeScore cs pod {| elems := scores; stores := ws |}
    = Some (framework.NewStatus framework.Success "", m')
    /\ elems m' !! i = Some nsi'
    /\ elems m' !! j = Some nsj'
    /\ framework.Score nsi' <= framework.Score nsj'.
Proof.
  intros Hr Hfit Hi Hj Hlt. rewrite NormalizeScore_run.
  do 3 eexists. split; [reflexivity|]. cbn [elems].
  rewrite !list_lookup_fmap, Hi, Hj. do 2 (split; [reflexivity|]).
  cbn [with_Score framework.Score].
  destruct (min_max scores) as [mn mx] eqn:Hmm.
  destruct (min_max_bounds scores mn mx Hr Hmm) as (Hall & _ & _).
  rewrite Forall_forall in Hall.
  pose proof (Hall nsi (list_elem_of_lookup_2 _ _ _ Hi)) as Hbi.
  pose proof (Hall nsj (list_elem_of_lookup_2 _ _ _ Hj)) as Hbj.
  destruct (normalized_exact scores mn mx _ Hr Hfit Hmm Hbi) as [-> _].
  destruct (normalized_exact scores mn mx _ Hr Hfit Hmm Hbj) as [-> _].
  destruct (Z.eqb_spec (mx - mn) 0); [lia|].
  apply Z.div_le_mono; lia.
Qed.

End NoOverflow.

(** ** The examples of the specification *)

(** minAvailable = 3 and two visible pods: Unschedulable. *)
Example PreFilter_three_of_two :
  PreFilter {| handle := host [labelled "g" "3"; labelled "g" "3"] ∅;
               scoreMode := leastMode |}
    (labelled "g" "3") []
  = Some (None,
          framework.NewStatus framework.Unschedulable "Not enough pods in the group.",
          [framework.ListCall {[ groupNameLabel := "g" ]}]).
Proof. vm_compute. reflexivity. Qed.

(** minAvailable = 2 and two visible pods: admitted. *)
Example PreFilter_two_of_two :
  PreFilter {| handle := host [labelled "g" "2"; labelled "g" "2"] ∅;
               scoreMode := leastMode |}
    (labelled "g" "2") []
  = Some (None, framework.NewStatus framework.Success "",
          [framework.ListCall {[ groupNameLabel := "g" ]}]).
Proof. vm_compute. reflexivity. Qed.

(** Memories 1000 and 2000: the raw scores 1000 and 2000 of mode "Most"
    normalize to 0 and 100, the raw scores -1000 and -2000 of mode
    "Least" to 100 and 0. *)
Example NormalizeScore_most cs pod :
  NormalizeScore cs pod
    {| elems := [node "node-a" 1000; node "node-b" 2000]; stores := [] |}
  = Some (framework.NewStatus framework.Success "",
          {| elems := [node "node-a" 0; node "node-b" 100];
             stores := [0%nat; 1%nat] |}).
Proof. vm_compute. reflexivity. Qed.

Example NormalizeScore_least cs pod :
  NormalizeScore cs pod
    {| elems := [node "node-a" (-1000); node "node-b" (-2000)]; stores := [] |}
  = Some (framework.NewStatus framework.Success "",
          {| elems := [node "node-a" 100; node "node-b" 0];
             stores := [0%nat; 1%nat] |}).
Proof. vm_compute. reflexivity. Qed.

(** [strconv.Atoi] at the edges: twenty digits do not fit [int], the
    least [int] does, a sign alone, an underscore or a space is a syntax
    error. *)
Example Atoi_edges :
  strconv.Atoi "99999999999999999999" = Err strconv.ErrRange
  /\ strconv.Atoi "-9223372036854775808" = Ok Int64.MinInt64
  /\ strconv.Atoi "+7" = Ok 7
  /\ strconv.Atoi "" = Err strconv.ErrSyntax
  /\ strconv.Atoi "-" = Err strconv.ErrSyntax
  /\ strconv.Atoi "1_000" = Err strconv.ErrSyntax
  /\ strconv.Atoi " 3" = Err strconv.ErrSyntax.
Proof. repeat split. Qed.

(** * Further properties *)

(** ** New *)

(** What a successful [New] was given and what it returns. *)
Lemma New_inv decoded h cs :
  New decoded h = Ok cs ->
  handle cs = h
  /\ (decoded = None /\ scoreMode cs = leastMode
      \/ decoded = Some (scoreMode cs)
         /\ (scoreMode cs = leastMode \/ scoreMode cs = mostMode)).
Proof.
  unfold New. destruct decoded as [mode|].
  - destruct (String.eqb_spec mode leastMode) as [->|_]; simpl.
    { intros [= <-]. simpl. auto. }
    destruct (String.eqb_spec mode mostMode) as [->|_]; simpl; [|done].
    intros [= <-]. simpl. auto.
  - intros [= <-]. simpl. auto.
Qed.

(** [New] succeeds exactly without arguments, which gives the mode
    "Least", or with the mode "Least" or "Most", which it keeps; the
    plugin holds the handle it was given. *)
Theorem New_ok_iff decoded h cs :
  New decoded h = Ok cs <->
  handle cs = h
  /\ (decoded = None /\ scoreMode cs = leastMode
      \/ decoded = Some (scoreMode cs)
         /\ (scoreMode cs = leastMode \/ scoreMode cs = mostMode)).
Proof.
  split; [apply New_inv|].
  destruct cs as [h' mode]. simpl.
  intros [-> [[-> ->] | [-> [-> | ->]]]]; reflexivity.
Qed.

(** Any other mode is refused, with the mode in the message: the check is
    exact, so the empty mode left by a failed decoding and a mode in
    another case are refused as well. *)
Theorem New_invalid_mode mode h :
  mode <> leastMode -> mode <> mostMode ->
  New (Some mode) h = Err ("invalid mode, got " +:+ mode).
Proof.
  intros Hl Hm. unfold New.
  destruct (String.eqb_spec mode leastMode); [done|].
  destruct (String.eqb_spec mode mostMode); [done|].
  reflexivity.
Qed.

Lemma New_invalid_mode_witness :
  New (Some "") (host [] ∅) = Err "invalid mode, got "
  /\ New (Some "least") (host [] ∅) = Err "invalid mode, got least".
Proof.
  split.
  - apply (New_invalid_mode "" (host [] ∅)); discriminate.
  - apply (New_invalid_mode "least" (host [] ∅)); discriminate.
Defined.

(** ** PreFilter *)

Section PreFilterMore.

Variable cs : CustomScheduler.
Variable pod : v1.Pod.
Variable calls : list framework.Call.

(** A failing listing is reported as Error, with the message of the
    failure, whatever the minimum: neither admitted nor Unschedulable. *)
Theorem PreFilter_listing_error group minAvailableStr m err :
  v1.Labels pod !! groupNameLabel = Some group ->
  v1.Labels pod !! minAvailableLabel = Some minAvailableStr ->
  strconv.Atoi minAvailableStr = Ok m ->
  framework.PodLister (handle cs) {[ groupNameLabel := group ]} = Err err ->
  PreFilter cs pod calls =
  Some (None,
        framework.NewStatus framework.Error ("Error listing pods.: " +:+ err +:+ "."),
        calls ++ [framework.ListCall {[ groupNameLabel := group ]}]).
Proof.
  intros Hg Hm Ha Hl.
  by rewrite (PreFilter_parsed cs pod calls group minAvailableStr m Hg Hm Ha), Hl.
Qed.

(** [PreFilter] always returns, with a nil result and one of the codes
    Success, Error and Unschedulable.  It asks the lister at most once,
    by the selector of the unit's own group label alone, and never asks
    for a node; Success and Unschedulable are only returned after a
    listing that succeeded. *)
Theorem PreFilter_outcomes :
  exists st calls',
    PreFilter cs pod calls = Some (None, st, calls')
    /\ (framework.StatusCode st = framework.Success
        \/ framework.StatusCode st = framework.Error
        \/ framework.StatusCode st = framework.Unschedulable)
    /\ (calls' = calls
        \/ exists group,
             v1.Labels pod !! groupNameLabel = Some group
             /\ calls' = calls ++ [framework.ListCall {[ groupNameLabel := group ]}])
    /\ (framework.StatusCode st <> framework.Error ->
        exists group pods,
          v1.Labels pod !! groupNameLabel = Some group
          /\ framework.PodLister (handle cs) {[ groupNameLabel := group ]} = Ok pods
          /\ calls' = calls ++ [framework.ListCall {[ groupNameLabel := group ]}]).
Proof.
  destruct (v1.Labels pod !! groupNameLabel) as [group|] eqn:Hg;
    [destruct (v1.Labels pod !! minAvailableLabel) as [minAvailableStr|] eqn:Hm;
     [destruct (strconv.Atoi minAvailableStr) as [m|e] eqn:Ha|]|].
  - rewrite (PreFilter_parsed cs pod calls group minAvailableStr m Hg Hm Ha).
    destruct (framework.PodLister _ _) as [pods|err] eqn:Hl.
    + destruct (len pods <? m); do 2 eexists; (split; [reflexivity|]); simpl;
        (split; [auto|]); (split; [right; eauto|]); intros _; eauto.
    + do 2 eexists; (split; [reflexivity|]); simpl.
      split; [auto|]. split; [right; eauto|]. done.
  - unfold PreFilter. rewrite Hg, Hm, Ha.
    do 2 eexists; (split; [reflexivity|]); simpl. repeat split; auto; done.
  - unfold PreFilter. rewrite Hg, Hm.
    do 2 eexists; (split; [reflexivity|]); simpl. repeat split; auto; done.
  - unfold PreFilter. rewrite Hg.
    do 2 eexists; (split; [reflexivity|]); simpl. repeat split; auto; done.
Qed.

(** The decision reads the two labels and the answer of the lister and
    nothing else: the name of the unit, its other labels, the score mode
    and the node snapshot do not matter. *)
Theorem PreFilter_frame cs' pod' :
  v1.Labels pod' !! groupNameLabel = v1.Labels pod !! groupNameLabel ->
  v1.Labels pod' !! minAvailableLabel = v1.Labels pod !! minAvailableLabel ->
  (forall selector,
     framework.PodLister (handle cs') selector
     = framework.PodLister (handle cs) selector) ->
  PreFilter cs' pod' calls = PreFilter cs pod calls.
Proof.
  intros Hg Hm Hl. unfold PreFilter. rewrite Hg, Hm.
  destruct (v1.Labels pod !! groupNameLabel) as [group|]; [|reflexivity].
  destruct (v1.Labels pod !! minAvailableLabel) as [minAvailableStr|];
    [|reflexivity].
  destruct (strconv.Atoi minAvailableStr) as [m|e]; [|reflexivity].
  unfold mbind, Exec_bind, exec_bind, framework.List. by rewrite Hl.
Qed.

(** Admission is monotone in the listing: a unit admitted with the pods
    the lister shows stays admitted when the lister shows at least as
    many. *)
Theorem PreFilter_monotone cs' group minAvailableStr m pods pods' calls1 :
  v1.Labels pod !! groupNameLabel = Some group ->
  v1.Labels pod !! minAvailableLabel = Some minAvailableStr ->
  strconv.Atoi minAvailableStr = Ok m ->
  framework.PodLister (handle cs) {[ groupNameLabel := group ]} = Ok pods ->
  framework.PodLister (handle cs') {[ groupNameLabel := group ]} = Ok pods' ->
  (length pods <= length pods')%nat ->
  PreFilter cs pod calls =
    Some (None, framework.NewStatus framework.Success "", calls1) ->
  PreFilter cs' pod calls =
    Some (None, framework.NewStatus framework.Success "",
          calls ++ [framework.ListCall {[ groupNameLabel := group ]}]).
Proof.
  intros Hg Hm Ha Hl Hl' Hle.
  rewrite (PreFilter_parsed cs pod calls group minAvailableStr m Hg Hm Ha), Hl.
  rewrite (PreFilter_parsed cs' pod calls group minAvailableStr m Hg Hm Ha), Hl'.
  unfold len.
  destruct (Z.ltb_spec (Z.of_nat (length pods)) m); [discriminate|].
  destruct (Z.ltb_spec (Z.of_nat (length pods')) m); [lia|]. reflexivity.
Qed.

End PreFilterMore.

Lemma PreFilter_listing_error_witness :
  PreFilter {| handle := broken_host "timeout"; scoreMode := leastMode |}
    (labelled "g" "2") []
  = Some (None,
          framework.NewStatus framework.Error "Error listing pods.: timeout.",
          [framework.ListCall {[ groupNameLabel := "g" ]}]).
Proof.
  apply (PreFilter_listing_error
           {| handle := broken_host "timeout"; scoreMode := leastMode |}
           (labelled "g" "2") [] "g" "2" 2 "timeout"); reflexivity.
Defined.

Lemma PreFilter_frame_witness :
  PreFilter {| handle := host [labelled "g" "1"] {[ "node-a" := 1 ]};
               scoreMode := mostMode |}
    {| v1.Name := "pod-1";
       v1.Labels := {[ groupNameLabel := "g"; minAvailableLabel := "1";
                       "app" := "web" ]} |} []
  = PreFilter {| handle := host [labelled "g" "1"] ∅; scoreMode := leastMode |}
      (labelled "g" "1") [].
Proof.
  apply (PreFilter_frame
           {| handle := host [labelled "g" "1"] ∅; scoreMode := leastMode |}
           (labelled "g" "1") []
           {| handle := host [labelled "g" "1"] {[ "node-a" := 1 ]};
              scoreMode := mostMode |}
           {| v1.Name := "pod-1";
              v1.Labels := {[ groupNameLabel := "g"; minAvailableLabel := "1";
                              "app" := "web" ]} |}).
  - vm_compute. reflexivity.
  - vm_compute. reflexivity.
  - intros selector. reflexivity.
Defined.

Lemma PreFilter_monotone_witness :
  PreFilter {| handle := host [labelled "g" "2"; labelled "g" "2"; labelled "g" "2"] ∅;
               scoreMode := leastMode |}
    (labelled "g" "2") []
  = Some (None, framework.NewStatus framework.Success "",
          [] ++ [framework.ListCall {[ groupNameLabel := "g" ]}]).
Proof.
  apply (PreFilter_monotone
           {| handle := host [labelled "g" "2"; labelled "g" "2"] ∅;
              scoreMode := leastMode |}
           (labelled "g" "2") []
           {| handle := host [labelled "g" "2"; labelled "g" "2"; labelled "g" "2"] ∅;
              scoreMode := leastMode |}
           "g" "2" 2
           [labelled "g" "2"; labelled "g" "2"]
           [labelled "g" "2"; labelled "g" "2"; labelled "g" "2"]
           [framework.ListCall {[ groupNameLabel := "g" ]}]).
  - reflexivity.
  - reflexivity.
  - reflexivity.
  - reflexivity.
  - reflexivity.
  - simpl. lia.
  - vm_compute. reflexivity.
Defined.

(** ** Score *)

Section ScoreMore.

Variable pod : v1.Pod.
Variable calls : list framework.Call.

(** A node the snapshot does not have scores 0 with the code Error and
    the message of the lookup. *)
Theorem Score_lookup_error cs nodeName err :
  framework.NodeInfos (handle cs) nodeName = Err err ->
  Score cs pod nodeName calls =
  Some (0, framework.NewStatus framework.Error ("Error getting node info: " +:+ err),
        calls ++ [framework.GetCall nodeName]).
Proof.
  intros Hget. unfold Score, mbind, Exec_bind, exec_bind, framework.Get.
  by rewrite Hget.
Qed.

(** With a mode that is neither "Least" nor "Most" every node that is
    found scores 0, with Success: the memory is not read. *)
Theorem Score_unknown_mode cs nodeName nodeInfo :
  scoreMode cs <> leastMode -> scoreMode cs <> mostMode ->
  framework.NodeInfos (handle cs) nodeName = Ok nodeInfo ->
  Score cs pod nodeName calls =
  Some (0, framework.NewStatus framework.Success "",
        calls ++ [framework.GetCall nodeName]).
Proof.
  intros Hl Hm Hget. rewrite (Score_found cs pod _ _ _ Hget).
  destruct (String.eqb_spec (scoreMode cs) leastMode); [done|].
  destruct (String.eqb_spec (scoreMode cs) mostMode); [done|].
  reflexivity.
Qed.

(** A plugin built by [New] never takes that path: on a node that is
    found it scores the memory when it was built with "Most", and the
    negated memory otherwise, also when built without arguments. *)
Theorem New_Score decoded h cs nodeName nodeInfo :
  New decoded h = Ok cs ->
  framework.NodeInfos h nodeName = Ok nodeInfo ->
  Score cs pod nodeName calls =
  Some (if bool_decide (decoded = Some mostMode)
        then framework.Memory (framework.Allocatable nodeInfo)
        else Int64.neg (framework.Memory (framework.Allocatable nodeInfo)),
        framework.NewStatus framework.Success "",
        calls ++ [framework.GetCall nodeName]).
Proof.
  intros (Hh & Hmode)%New_inv Hget. rewrite <- Hh in Hget.
  rewrite (Score_found cs pod _ _ _ Hget).
  destruct Hmode as [[-> ->] | [-> [-> | ->]]]; reflexivity.
Qed.

End ScoreMore.

Lemma Score_lookup_error_witness :
  Score {| handle := host [] {[ "node-a" := 1000 ]}; scoreMode := mostMode |}
    (labelled "g" "1") "node-b" []
  = Some (0, framework.NewStatus framework.Error
               "Error getting node info: node not found",
          [] ++ [framework.GetCall "node-b"]).
Proof.
  apply (Score_lookup_error (labelled "g" "1") []
           {| handle := host [] {[ "node-a" := 1000 ]}; scoreMode := mostMode |}
           "node-b" "node not found").
  reflexivity.
Defined.

Lemma Score_unknown_mode_witness :
  Score {| handle := host [] {[ "node-a" := 1000 ]}; scoreMode := "least" |}
    (labelled "g" "1") "node-a" []
  = Some (0, framework.NewStatus framework.Success "",
          [] ++ [framework.GetCall "node-a"]).
Proof.
  apply (Score_unknown_mode (labelled "g" "1") []
           {| handle := host [] {[ "node-a" := 1000 ]}; scoreMode := "least" |}
           "node-a" {| framework.Allocatable := {| framework.Memory := 1000 |} |}).
  - discriminate.
  - discriminate.
  - reflexivity.
Defined.

Lemma New_Score_witness :
  Score {| handle := host [] {[ "node-a" := 1000 ]}; scoreMode := leastMode |}
    (labelled "g" "1") "node-a" []
  = Some (-1000, framework.NewStatus framework.Success "",
          [] ++ [framework.GetCall "node-a"]).
Proof.
  apply (New_Score (labelled "g" "1") [] None
           (host [] {[ "node-a" := 1000 ]})
           {| handle := host [] {[ "node-a" := 1000 ]}; scoreMode := leastMode |}
           "node-a" {| framework.Allocatable := {| framework.Memory := 1000 |} |}).
  - reflexivity.
  - reflexivity.
Defined.

(** ** NormalizeScore *)

(** The first loop finds the least and the greatest raw score of a
    non-empty vector. *)
Lemma min_max_char scores mn mx :
  Forall (fun ns => Int64.in_range (framework.Score ns)) scores ->
  scores <> [] ->
  min_max scores = (mn, mx) <->
  Forall (fun ns => mn <= framework.Score ns <= mx) scores
  /\ Exists (fun ns => framework.Score ns = mn) scores
  /\ Exists (fun ns => framework.Score ns = mx) scores.
Proof.
  intros Hr Hne.
  assert (Hfwd : forall a b, min_max scores = (a, b) ->
            Forall (fun ns => a <= framework.Score ns <= b) scores
            /\ Exists (fun ns => framework.Score ns = a) scores
            /\ Exists (fun ns => framework.Score ns = b) scores).
  { intros a b H. apply foldl_min_max in H as (H1 & H2 & H3 & H4 & H5).
    split; [exact H3|].
    destruct scores as [|ns0 rest]; [done|].
    pose proof (Forall_inv Hr) as Hr0. pose proof (Forall_inv H3) as Hb0.
    cbv beta in Hr0, Hb0.
    unfold Int64.in_range, Int64.MaxInt64, Int64.MinInt64 in *.
    split.
    - destruct H4 as [->|H4]; [|exact H4]. apply Exists_cons_hd. lia.
    - destruct H5 as [->|H5]; [|exact H5]. apply Exists_cons_hd. lia. }
  split; [apply Hfwd|].
  intros (Hall & (n1 & Hin1 & Hn1)%Exists_exists & (n2 & Hin2 & Hn2)%Exists_exists).
  destruct (min_max scores) as [a b] eqn:Hmm.
  destruct (Hfwd a b eq_refl)
    as (Hall' & (n3 & Hin3 & Hn3)%Exists_exists & (n4 & Hin4 & Hn4)%Exists_exists).
  rewrite Forall_forall in Hall, Hall'.
  pose proof (Hall n3 Hin3). pose proof (Hall n4 Hin4).
  pose proof (Hall' n1 Hin1). pose proof (Hall' n2 Hin2).
  f_equal; lia.
Qed.

Section NormalizeScoreMore.

Variable cs : CustomScheduler.
Variable pod : v1.Pod.

(** Ties are kept on every vector, wrap-around or not: two entries with
    the same raw score get the same normalized score. *)
Theorem NormalizeScore_ties scores ws i j nsi nsj :
  scores !! i = Some nsi ->
  scores !! j = Some nsj ->
  framework.Score nsi = framework.Score nsj ->
  exists m' nsi' nsj',
    NormalizeScore cs pod {| elems := scores; stores := ws |}
    = Some (framework.NewStatus framework.Success "", m')
    /\ elems m' !! i = Some nsi'
    /\ elems m' !! j = Some nsj'
    /\ framework.Score nsi' = framework.Score nsj'.
Proof.
  intros Hi Hj Heq. rewrite NormalizeScore_run.
  do 3 eexists. split; [reflexivity|]. cbn [elems].
  rewrite !list_lookup_fmap, Hi, Hj. do 2 (split; [reflexivity|]).
  cbn [with_Score framework.Score]. by rewrite Heq.
Qed.

(** Away from the wrap-around and on a vector that is not degenerate,
    an entry with the least raw score gets [MinNodeScore] and an entry
    with the greatest raw score gets [MaxNodeScore]. *)
Theorem NormalizeScore_extremes scores ws i ns other :
  Forall (fun ns => Int64.in_range (framework.Score ns)) scores ->
  no_overflow scores ->
  scores !! i = Some ns ->
  other ∈ scores ->
  framework.Score other <> framework.Score ns ->
  exists m' ns',
    NormalizeScore cs pod {| elems := scores; stores := ws |}
    = Some (framework.NewStatus framework.Success "", m')
    /\ elems m' !! i = Some ns'
    /\ ((forall ns0, ns0 ∈ scores -> framework.Score ns <= framework.Score ns0) ->
        framework.Score ns' = framework.MinNodeScore)
    /\ ((forall ns0, ns0 ∈ scores -> framework.Score ns0 <= framework.Score ns) ->
        framework.Score ns' = framework.MaxNodeScore).
Proof.
  intros Hr Hfit Hi Hother Hne. rewrite NormalizeScore_run.
  do 2 eexists. split; [reflexivity|]. cbn [elems].
  rewrite list_lookup_fmap, Hi. split; [reflexivity|].
  cbn [with_Score framework.Score].
  destruct (min_max scores) as [mn mx] eqn:Hmm.
  destruct (min_max_bounds scores mn mx Hr Hmm) as (Hall & _ & _).
  assert (Hin : ns ∈ scores) by (by eapply list_elem_of_lookup_2).
  assert (Hnil : scores <> []) by (intros ->; by apply not_elem_of_nil in Hin).
  apply (min_max_char scores mn mx Hr Hnil) in Hmm as Hchar.
  destruct Hchar
    as (_ & (n1 & Hin1 & Hn1)%Exists_exists & (n2 & Hin2 & Hn2)%Exists_exists).
  rewrite Forall_forall in Hall.
  pose proof (Hall ns Hin) as Hb. pose proof (Hall other Hother) as Hbo.
  destruct (normalized_exact scores mn mx _ Hr Hfit Hmm Hb) as [-> _].
  destruct (Z.eqb_spec (mx - mn) 0); [lia|].
  unfold framework.MinNodeScore, framework.MaxNodeScore.
  split; intros Hext.
  - pose proof (Hext n1 Hin1).
    replace (framework.Score ns - mn) with 0 by lia. reflexivity.
  - pose proof (Hext n2 Hin2).
    replace (framework.Score ns - mn) with (mx - mn) by lia.
    rewrite Z.mul_comm. apply Z.div_mul. lia.
Qed.

End NormalizeScoreMore.

Section NormalizeScoreAlgebra.

Variable cs : CustomScheduler.
Variable pod : v1.Pod.

(** The normalized vector of a vector that is not degenerate spans the
    whole target range. *)
Lemma min_max_normalized scores mn mx :
  Forall (fun ns => Int64.in_range (framework.Score ns)) scores ->
  no_overflow scores ->
  scores <> [] ->
  min_max scores = (mn, mx) ->
  mx - mn <> 0 ->
  min_max (with_Score (normalized scores) <$> scores) = (0, 100).
Proof.
  intros Hr Hfit Hnil Hmm Hnz.
  destruct (min_max_bounds scores mn mx Hr Hmm) as (Hall & _ & _).
  apply (min_max_char scores mn mx Hr Hnil) in Hmm as Hchar.
  destruct Hchar
    as (_ & (n1 & Hin1 & Hn1)%Exists_exists & (n2 & Hin2 & Hn2)%Exists_exists).
  rewrite Forall_forall in Hall.
  assert (Hval : forall ns, ns ∈ scores ->
            normalized scores (framework.Score ns)
            = (framework.Score ns - mn) * 100 / (mx - mn)
            /\ 0 <= normalized scores (framework.Score ns) <= 100).
  { intros ns Hin.
    destruct (normalized_exact scores mn mx _ Hr Hfit Hmm (Hall ns Hin)) as [He Hb].
    destruct (Z.eqb_spec (mx - mn) 0); [done|]. split; [exact He|exact Hb]. }
  apply min_max_char.
  - rewrite Forall_fmap, Forall_forall. intros ns Hin.
    destruct (Hval ns Hin) as [_ Hb]. cbn.
    unfold Int64.in_range, Int64.MinInt64, Int64.MaxInt64. lia.
  - destruct scores; [done|discriminate].
  - split; [|split].
    + rewrite Forall_fmap, Forall_forall. intros ns Hin. cbn.
      apply (Hval ns Hin).
    + rewrite Exists_fmap, Exists_exists. exists n1. split; [exact Hin1|]. cbn.
      rewrite (proj1 (Hval n1 Hin1)), Hn1, Z.sub_diag. reflexivity.
    + rewrite Exists_fmap, Exists_exists. exists n2. split; [exact Hin2|]. cbn.
      rewrite (proj1 (Hval n2 Hin2)), Hn2, Z.mul_comm. apply Z.div_mul. exact Hnz.
Qed.

(** Away from the wrap-around [NormalizeScore] is idempotent: a second
    run on its own output stores the scores that are already there. *)
Theorem NormalizeScore_idempotent scores ws ws' :
  Forall (fun ns => Int64.in_range (framework.Score ns)) scores ->
  no_overflow scores ->
  exists m',
    NormalizeScore cs pod {| elems := scores; stores := ws |}
    = Some (framework.NewStatus framework.Success "", m')
    /\ NormalizeScore cs pod {| elems := elems m'; stores := ws' |}
       = Some (framework.NewStatus framework.Success "",
               {| elems := elems m'; stores := ws' ++ seq 0 (length scores) |}).
Proof.
  intros Hr Hfit. rewrite NormalizeScore_run.
  eexists; split; [reflexivity|]. cbn [elems].
  rewrite NormalizeScore_run, length_map.
  do 3 f_equal.
  pose (out := with_Score (normalized scores) <$> scores).
  change (with_Score (normalized out) <$> (with_Score (normalized scores) <$> scores)
          = with_Score (normalized scores) <$> scores).
  rewrite <- list_fmap_compose. apply Forall_fmap_ext_1.
  rewrite Forall_forall. intros ns Hin.
  unfold compose, with_Score. cbn [framework.Name framework.Score].
  f_equal.
  assert (Hnil : scores <> []) by (intros ->; by apply not_elem_of_nil in Hin).
  destruct (min_max scores) as [mn mx] eqn:Hmm.
  destruct (min_max_bounds scores mn mx Hr Hmm) as (Hall & _ & _).
  rewrite Forall_forall in Hall.
  destruct (Z.eq_dec (mx - mn) 0) as [Hz|Hnz].
  - assert (Hval : forall ns0, ns0 ∈ scores ->
              normalized scores (framework.Score ns0) = 50).
    { intros ns0 Hin0.
      destruct (normalized_exact scores mn mx _ Hr Hfit Hmm (Hall ns0 Hin0)) as [He _].
      rewrite He. by destruct (Z.eqb_spec (mx - mn) 0). }
    rewrite (Hval ns Hin). unfold normalized.
    rewrite (min_max_const 50 out).
    + by rewrite sub_diag.
    + unfold Int64.in_range, Int64.MinInt64, Int64.MaxInt64. lia.
    + unfold out. destruct scores; [done|discriminate].
    + unfold out.
      change (Forall (fun ns0 => framework.Score ns0 = 50)
                (with_Score (normalized scores) <$> scores)).
      rewrite Forall_fmap, Forall_forall. intros ns0 Hin0. cbn.
      exact (Hval ns0 Hin0).
  - pose proof (min_max_normalized scores mn mx Hr Hfit Hnil Hmm Hnz) as Hout.
    fold out in Hout.
    destruct (normalized_exact scores mn mx _ Hr Hfit Hmm (Hall ns Hin)) as [_ Hb].
    unfold framework.MinNodeScore, framework.MaxNodeScore in Hb.
    assert (Hrout : Forall (fun ns0 => Int64.in_range (framework.Score ns0)) out).
    { unfold out.
      change (Forall (fun ns0 => Int64.in_range (framework.Score ns0))
                (with_Score (normalized scores) <$> scores)).
      rewrite Forall_fmap, Forall_forall. intros ns0 Hin0. cbn.
      destruct (normalized_exact scores mn mx _ Hr Hfit Hmm (Hall ns0 Hin0)) as [_ Hb0].
      unfold framework.MinNodeScore, framework.MaxNodeScore in Hb0.
      unfold Int64.in_range, Int64.MinInt64, Int64.MaxInt64. lia. }
    assert (Hfout : no_overflow out).
    { unfold no_overflow. rewrite Hout.
      unfold framework.MinNodeScore, framework.MaxNodeScore, Int64.MaxInt64. lia. }
    destruct (normalized_exact out 0 100 _ Hrout Hfout Hout Hb) as [-> _].
    change (100 - 0 =? 0) with false. cbv iota.
    rewrite Z.sub_0_r. change (100 - 0) with 100. apply Z.div_mul. lia.
Qed.

(** [NormalizeScore] reads the raw scores through their differences
    only: adding one constant to every raw score, within [int64], leaves
    every normalized score as it was, wrap-around or not. *)
Theorem NormalizeScore_shift scores c ws :
  Forall (fun ns => Int64.in_range (framework.Score ns)) scores ->
  Forall (fun ns => Int64.in_range (framework.Score ns + c)) scores ->
  exists m1 m2,
    NormalizeScore cs pod {| elems := scores; stores := ws |}
    = Some (framework.NewStatus framework.Success "", m1)
    /\ NormalizeScore cs pod
         {| elems := with_Score (fun s => s + c) <$> scores; stores := ws |}
       = Some (framework.NewStatus framework.Success "", m2)
    /\ elems m2 = elems m1.
Proof.
  intros Hr Hrc. rewrite !NormalizeScore_run.
  do 2 eexists. do 2 (split; [reflexivity|]). cbn [elems].
  set (shifted := with_Score (fun s => s + c) <$> scores).
  change (with_Score (normalized shifted) <$> (with_Score (fun s => s + c) <$> scores)
          = with_Score (normalized scores) <$> scores).
  rewrite <- list_fmap_compose. apply Forall_fmap_ext_1.
  rewrite Forall_forall. intros ns Hin.
  unfold compose, with_Score. cbn [framework.Name framework.Score].
  f_equal.
  assert (Hnil : scores <> []) by (intros ->; by apply not_elem_of_nil in Hin).
  destruct (min_max scores) as [mn mx] eqn:Hmm.
  apply (min_max_char scores mn mx Hr Hnil) in Hmm as Hchar.
  destruct Hchar as (Hall & Hmn & Hmx).
  assert (Hmm' : min_max shifted = (mn + c, mx + c)).
  { apply min_max_char.
    - unfold shifted. rewrite Forall_fmap. exact Hrc.
    - unfold shifted. destruct scores; [done|discriminate].
    - unfold shifted. rewrite Forall_fmap, !Exists_fmap. split; [|split].
      + eapply Forall_impl; [exact Hall|]. intros ns0 Hb. cbn in *. lia.
      + eapply Exists_impl; [exact Hmn|]. intros ns0 Hb. cbn in *. lia.
      + eapply Exists_impl; [exact Hmx|]. intros ns0 Hb. cbn in *. lia. }
  unfold normalized. rewrite Hmm, Hmm'.
  replace (Int64.sub (mx + c) (mn + c)) with (Int64.sub mx mn)
    by (unfold Int64.sub; f_equal; lia).
  destruct (Int64.sub mx mn =? 0); [reflexivity|].
  unfold rescale.
  replace (Int64.sub (framework.Score ns + c) (mn + c))
    with (Int64.sub (framework.Score ns) mn)
    by (unfold Int64.sub; f_equal; lia).
  reflexivity.
Qed.

End NormalizeScoreAlgebra.

Section NormalizeScoreLimit.

Variable cs : CustomScheduler.
Variable pod : v1.Pod.

(** The bound of [no_overflow] is sharp.  When the spread of the raw
    scores still fits [int64] but its product with the width of the
    target range does not, an entry with the greatest raw score is left
    below [MaxNodeScore]. *)
Theorem NormalizeScore_overflow_sharp scores ws i ns least :
  Forall (fun ns => Int64.in_range (framework.Score ns)) scores ->
  scores !! i = Some ns ->
  least ∈ scores ->
  (forall ns0, ns0 ∈ scores ->
     framework.Score least <= framework.Score ns0 <= framework.Score ns) ->
  framework.Score ns - framework.Score least <= Int64.MaxInt64 ->
  (framework.Score ns - framework.Score least)
  * (framework.MaxNodeScore - framework.MinNodeScore) > Int64.MaxInt64 ->
  exists m' ns',
    NormalizeScore cs pod {| elems := scores; stores := ws |}
    = Some (framework.NewStatus framework.Success "", m')
    /\ elems m' !! i = Some ns'
    /\ framework.Score ns' < framework.MaxNodeScore.
Proof.
  intros Hr Hi Hleast Hext Hfit Hover. rewrite NormalizeScore_run.
  do 2 eexists. split; [reflexivity|]. cbn [elems].
  rewrite list_lookup_fmap, Hi. split; [reflexivity|].
  cbn [with_Score framework.Score].
  assert (Hin : ns ∈ scores) by (by eapply list_elem_of_lookup_2).
  assert (Hnil : scores <> []) by (intros ->; by apply not_elem_of_nil in Hin).
  assert (Hmm : min_max scores = (framework.Score least, framework.Score ns)).
  { apply (min_max_char _ _ _ Hr Hnil). split; [|split].
    - rewrite Forall_forall. exact Hext.
    - rewrite Exists_exists. by exists least.
    - rewrite Exists_exists. by exists ns. }
  unfold normalized. rewrite Hmm.
  set (mn := framework.Score least) in *. set (mx := framework.Score ns) in *.
  unfold framework.MaxNodeScore, framework.MinNodeScore, Int64.MaxInt64 in *.
  assert (Hd : Int64.sub mx mn = mx - mn).
  { apply wrap_small. unfold Int64.in_range, Int64.MinInt64, Int64.MaxInt64. lia. }
  rewrite Hd. destruct (Z.eqb_spec (mx - mn) 0); [lia|].
  unfold rescale, Int64.add, Int64.mul.
  unfold framework.MaxNodeScore, framework.MinNodeScore.
  rewrite Hd.
  change (Int64.sub 100 0) with 100.
  pose proof (wrap_in_range ((mx - mn) * 100)) as Hw.
  set (w := Int64.wrap ((mx - mn) * 100)) in *.
  unfold Int64.in_range, Int64.MinInt64, Int64.MaxInt64 in Hw.
  assert (Hq : -9223372036854775808 <= w ÷ (mx - mn) < 100).
  { destruct (Z_le_gt_dec 0 w).
    - rewrite Z.quot_div_nonneg by lia. split.
      + pose proof (Z.div_pos w (mx - mn)). lia.
      + apply Z.div_lt_upper_bound; lia.
    - replace w with (- (- w)) by lia.
      rewrite Z.quot_opp_l by lia.
      rewrite Z.quot_div_nonneg by lia.
      pose proof (Z.div_pos (- w) (mx - mn)).
      assert (- w / (mx - mn) <= 9223372036854775808)
        by (apply Z.div_le_upper_bound; nia).
      lia. }
  rewrite (wrap_small (w ÷ (mx - mn)))
    by (unfold Int64.in_range, Int64.MinInt64, Int64.MaxInt64; lia).
  rewrite Z.add_0_l.
  rewrite wrap_small
    by (unfold Int64.in_range, Int64.MinInt64, Int64.MaxInt64; lia).
  lia.
Qed.

End NormalizeScoreLimit.

(** ** Score, then NormalizeScore *)

Section Pipeline.

Variable cs : CustomScheduler.
Variable pod : v1.Pod.

Lemma scored_value scores ns nodeInfo :
  scored cs pod scores -> ns ∈ scores ->
  framework.NodeInfos (handle cs) (framework.Name ns) = Ok nodeInfo ->
  0 <= framework.Memory (framework.Allocatable nodeInfo) <= Int64.MaxInt64
  /\ Int64.in_range (framework.Score ns)
  /\ (scoreMode cs = mostMode ->
      framework.Score ns = framework.Memory (framework.Allocatable nodeInfo))
  /\ (scoreMode cs = leastMode ->
      framework.Score ns = - framework.Memory (framework.Allocatable nodeInfo)).
Proof.
  intros Hs Hin Hget. destruct (Hs ns Hin) as (nodeInfo' & Hget' & Hmem & Hrun).
  rewrite Hget in Hget'. injection Hget' as <-.
  rewrite (Score_found cs pod _ _ _ Hget) in Hrun. injection Hrun as Hv.
  split; [exact Hmem|].
  unfold Int64.MaxInt64 in Hmem.
  assert (Hneg : Int64.neg (framework.Memory (framework.Allocatable nodeInfo))
                 = - framework.Memory (framework.Allocatable nodeInfo)).
  { apply neg_exact. unfold Int64.MinInt64, Int64.MaxInt64. lia. }
  rewrite Hneg in Hv. rewrite <- Hv.
  split; [|split].
  - unfold Int64.in_range, Int64.MinInt64, Int64.MaxInt64.
    destruct (String.eqb _ leastMode); [lia|].
    destruct (String.eqb _ mostMode); lia.
  - intros ->. reflexivity.
  - intros ->. reflexivity.
Qed.

(** On such a vector, away from the wrap-around, the normalized scores
    follow the mode: with "Most" the node with more allocatable memory
    is ranked at least as high, with "Least" the node with less. *)
Theorem Score_NormalizeScore_preference scores ws i j nsi nsj nodeInfoi nodeInfoj :
  scored cs pod scores ->
  no_overflow scores ->
  scores !! i = Some nsi ->
  scores !! j = Some nsj ->
  framework.NodeInfos (handle cs) (framework.Name nsi) = Ok nodeInfoi ->
  framework.NodeInfos (handle cs) (framework.Name nsj) = Ok nodeInfoj ->
  framework.Memory (framework.Allocatable nodeInfoi)
  < framework.Memory (framework.Allocatable nodeInfoj) ->
  exists m' nsi' nsj',
    NormalizeScore cs pod {| elems := scores; stores := ws |}
    = Some (framework.NewStatus framework.Success "", m')
    /\ elems m' !! i = Some nsi'
    /\ elems m' !! j = Some nsj'
    /\ (scoreMode cs = mostMode -> framework.Score nsi' <= framework.Score nsj')
    /\ (scoreMode cs = leastMode -> framework.Score nsj' <= framework.Score nsi').
Proof.
  intros Hs Hfit Hi Hj Hgeti Hgetj Hlt.
  assert (Hr : Forall (fun ns => Int64.in_range (framework.Score ns)) scores).
  { rewrite Forall_forall. intros ns Hin.
    destruct (Hs ns Hin) as (nodeInfo & Hget & _).
    apply (scored_value scores ns nodeInfo Hs Hin Hget). }
  destruct (scored_value scores nsi nodeInfoi Hs
              (list_elem_of_lookup_2 _ _ _ Hi) Hgeti) as (_ & _ & Hmi & Hli).
  destruct (scored_value scores nsj nodeInfoj Hs
              (list_elem_of_lookup_2 _ _ _ Hj) Hgetj) as (_ & _ & Hmj & Hlj).
  rewrite NormalizeScore_run.
  do 3 eexists. split; [reflexivity|]. cbn [elems].
  rewrite !list_lookup_fmap, Hi, Hj. do 2 (split; [reflexivity|]).
  cbn [with_Score framework.Score].
  destruct (min_max scores) as [mn mx] eqn:Hmm.
  destruct (min_max_bounds scores mn mx Hr Hmm) as (Hall & _ & _).
  rewrite Forall_forall in Hall.
  pose proof (Hall nsi (list_elem_of_lookup_2 _ _ _ Hi)) as Hbi.
  pose proof (Hall nsj (list_elem_of_lookup_2 _ _ _ Hj)) as Hbj.
  destruct (normalized_exact scores mn mx _ Hr Hfit Hmm Hbi) as [-> _].
  destruct (normalized_exact scores mn mx _ Hr Hfit Hmm Hbj) as [-> _].
  split; intros Hmode.
  - specialize (Hmi Hmode). specialize (Hmj Hmode).
    destruct (Z.eqb_spec (mx - mn) 0); [lia|]. apply Z.div_le_mono; lia.
  - specialize (Hli Hmode). specialize (Hlj Hmode).
    destruct (Z.eqb_spec (mx - mn) 0); [lia|]. apply Z.div_le_mono; lia.
Qed.

End Pipeline.

(** ** Concrete runs of the further properties *)

Ltac in_int64 :=
  unfold Int64.in_range, Int64.MinInt64, Int64.MaxInt64; simpl; lia.

Ltac fits_int64 :=
  unfold no_overflow, framework.MaxNodeScore, framework.MinNodeScore,
    Int64.MaxInt64; simpl; lia.

Lemma NormalizeScore_bounds_no_overflow_witness :
  exists m',
    NormalizeScore {| handle := host [] ∅; scoreMode := mostMode |}
      (labelled "g" "1")
      {| elems := [node "node-a" 1000; node "node-b" 2000; node "node-c" 1300];
         stores := [] |}
    = Some (framework.NewStatus framework.Success "", m')
    /\ Forall (fun ns => framework.MinNodeScore <= framework.Score ns
                         <= framework.MaxNodeScore) (elems m').
Proof.
  apply (NormalizeScore_bounds_no_overflow
           {| handle := host [] ∅; scoreMode := mostMode |} (labelled "g" "1")
           [node "node-a" 1000; node "node-b" 2000; node "node-c" 1300] []).
  - repeat constructor; in_int64.
  - fits_int64.
Defined.

Lemma NormalizeScore_order_no_overflow_witness :
  exists m' nsi' nsj',
    NormalizeScore {| handle := host [] ∅; scoreMode := mostMode |}
      (labelled "g" "1")
      {| elems := [node "node-a" 1000; node "node-b" 2000; node "node-c" 1300];
         stores := [] |}
    = Some (framework.NewStatus framework.Success "", m')
    /\ elems m' !! 2%nat = Some nsi'
    /\ elems m' !! 1%nat = Some nsj'
    /\ framework.Score nsi' <= framework.Score nsj'.
Proof.
  apply (NormalizeScore_order_no_overflow
           {| handle := host [] ∅; scoreMode := mostMode |} (labelled "g" "1")
           [node "node-a" 1000; node "node-b" 2000; node "node-c" 1300] []
           2%nat 1%nat (node "node-c" 1300) (node "node-b" 2000)).
  - repeat constructor; in_int64.
  - fits_int64.
  - reflexivity.
  - reflexivity.
  - simpl. lia.
Defined.

Lemma NormalizeScore_ties_witness :
  exists m' nsi' nsj',
    NormalizeScore {| handle := host [] ∅; scoreMode := mostMode |}
      (labelled "g" "1")
      {| elems := [node "node-a" 1000; node "node-b" 2000; node "node-c" 1000];
         stores := [] |}
    = Some (framework.NewStatus framework.Success "", m')
    /\ elems m' !! 0%nat = Some nsi'
    /\ elems m' !! 2%nat = Some nsj'
    /\ framework.Score nsi' = framework.Score nsj'.
Proof.
  apply (NormalizeScore_ties
           {| handle := host [] ∅; scoreMode := mostMode |} (labelled "g" "1")
           [node "node-a" 1000; node "node-b" 2000; node "node-c" 1000] []
           0%nat 2%nat (node "node-a" 1000) (node "node-c" 1000));
    reflexivity.
Defined.

Lemma NormalizeScore_extremes_witness :
  exists m' ns',
    NormalizeScore {| handle := host [] ∅; scoreMode := mostMode |}
      (labelled "g" "1")
      {| elems := [node "node-a" 1000; node "node-b" 2000; node "node-c" 1300];
         stores := [] |}
    = Some (framework.NewStatus framework.Success "", m')
    /\ elems m' !! 1%nat = Some ns'
    /\ ((forall ns0,
           ns0 ∈ [node "node-a" 1000; node "node-b" 2000; node "node-c" 1300] ->
           framework.Score (node "node-b" 2000) <= framework.Score ns0) ->
        framework.Score ns' = framework.MinNodeScore)
    /\ ((forall ns0,
           ns0 ∈ [node "node-a" 1000; node "node-b" 2000; node "node-c" 1300] ->
           framework.Score ns0 <= framework.Score (node "node-b" 2000)) ->
        framework.Score ns' = framework.MaxNodeScore).
Proof.
  apply (NormalizeScore_extremes
           {| handle := host [] ∅; scoreMode := mostMode |} (labelled "g" "1")
           [node "node-a" 1000; node "node-b" 2000; node "node-c" 1300] []
           1%nat (node "node-b" 2000) (node "node-a" 1000)).
  - repeat constructor; in_int64.
  - fits_int64.
  - reflexivity.
  - apply list_elem_of_here.
  - simpl. lia.
Defined.

Lemma NormalizeScore_idempotent_witness :
  exists m',
    NormalizeScore {| handle := host [] ∅; scoreMode := mostMode |}
      (labelled "g" "1")
      {| elems := [node "node-a" 1000; node "node-b" 2000; node "node-c" 1300];
         stores := [] |}
    = Some (framework.NewStatus framework.Success "", m')
    /\ NormalizeScore {| handle := host [] ∅; scoreMode := mostMode |}
         (labelled "g" "1") {| elems := elems m'; stores := [] |}
       = Some (framework.NewStatus framework.Success "",
               {| elems := elems m';
                  stores :=
                    [] ++ seq 0 (length [node "node-a" 1000; node "node-b" 2000;
                                         node "node-c" 1300]) |}).
Proof.
  apply (NormalizeScore_idempotent
           {| handle := host [] ∅; scoreMode := mostMode |} (labelled "g" "1")
           [node "node-a" 1000; node "node-b" 2000; node "node-c" 1300] [] []).
  - repeat constructor; in_int64.
  - fits_int64.
Defined.

Lemma NormalizeScore_shift_witness :
  exists m1 m2,
    NormalizeScore {| handle := host [] ∅; scoreMode := mostMode |}
      (labelled "g" "1")
      {| elems := [node "node-a" 1000; node "node-b" 2000; node "node-c" 1300];
         stores := [] |}
    = Some (framework.NewStatus framework.Success "", m1)
    /\ NormalizeScore {| handle := host [] ∅; scoreMode := mostMode |}
         (labelled "g" "1")
         {| elems := with_Score (fun s => s + -3000)
                       <$> [node "node-a" 1000; node "node-b" 2000;
                            node "node-c" 1300];
            stores := [] |}
       = Some (framework.NewStatus framework.Success "", m2)
    /\ elems m2 = elems m1.
Proof.
  apply (NormalizeScore_shift
           {| handle := host [] ∅; scoreMode := mostMode |} (labelled "g" "1")
           [node "node-a" 1000; node "node-b" 2000; node "node-c" 1300]
           (-3000) []).
  - repeat constructor; in_int64.
  - repeat constructor; in_int64.
Defined.

Lemma NormalizeScore_overflow_sharp_witness :
  exists m' ns',
    NormalizeScore {| handle := host [] ∅; scoreMode := mostMode |}
      (labelled "g" "1")
      {| elems := [node "node-a" 0; node "node-b" 100000000000000000];
         stores := [] |}
    = Some (framework.NewStatus framework.Success "", m')
    /\ elems m' !! 1%nat = Some ns'
    /\ framework.Score ns' < framework.MaxNodeScore.
Proof.
  apply (NormalizeScore_overflow_sharp
           {| handle := host [] ∅; scoreMode := mostMode |} (labelled "g" "1")
           [node "node-a" 0; node "node-b" 100000000000000000] []
           1%nat (node "node-b" 100000000000000000) (node "node-a" 0)).
  - repeat constructor; in_int64.
  - reflexivity.
  - apply list_elem_of_here.
  - intros ns0 Hin.
    apply elem_of_cons in Hin as [-> | Hin]; [simpl; lia|].
    apply elem_of_cons in Hin as [-> | Hin]; [simpl; lia|].
    by apply not_elem_of_nil in Hin.
  - unfold Int64.MaxInt64. simpl. lia.
  - unfold framework.MaxNodeScore, framework.MinNodeScore, Int64.MaxInt64.
    simpl. lia.
Defined.

Lemma Score_NormalizeScore_preference_witness :
  exists m' nsi' nsj',
    NormalizeScore
      {| handle := host [] {[ "node-a" := 1000; "node-b" := 2000 ]};
         scoreMode := leastMode |}
      (labelled "g" "1")
      {| elems := [node "node-a" (-1000); node "node-b" (-2000)]; stores := [] |}
    = Some (framework.NewStatus framework.Success "", m')
    /\ elems m' !! 0%nat = Some nsi'
    /\ elems m' !! 1%nat = Some nsj'
    /\ (leastMode = mostMode -> framework.Score nsi' <= framework.Score nsj')
    /\ (leastMode = leastMode -> framework.Score nsj' <= framework.Score nsi').
Proof.
  apply (Score_NormalizeScore_preference
           {| handle := host [] {[ "node-a" := 1000; "node-b" := 2000 ]};
              scoreMode := leastMode |}
           (labelled "g" "1")
           [node "node-a" (-1000); node "node-b" (-2000)] []
           0%nat 1%nat (node "node-a" (-1000)) (node "node-b" (-2000))
           {| framework.Allocatable := {| framework.Memory := 1000 |} |}
           {| framework.Allocatable := {| framework.Memory := 2000 |} |}).
  - intros ns0 Hin.
    apply elem_of_cons in Hin as [-> | Hin];
      [|apply elem_of_cons in Hin as [-> | Hin];
        [|by apply not_elem_of_nil in Hin]].
    + exists {| framework.Allocatable := {| framework.Memory := 1000 |} |}.
      split; [reflexivity|]. split; [unfold Int64.MaxInt64; simpl; lia|].
      vm_compute. reflexivity.
    + exists {| framework.Allocatable := {| framework.Memory := 2000 |} |}.
      split; [reflexivity|]. split; [unfold Int64.MaxInt64; simpl; lia|].
      vm_compute. reflexivity.
  - fits_int64.
  - reflexivity.
  - reflexivity.
  - reflexivity.
  - reflexivity.
  - simpl. lia.
Defined.

(** ** The outcomes, characterized *)

(** [PreFilter] returns Error exactly in four cases: the group-name
    label is missing, the minimum-available label is missing, its value
    is rejected by [strconv.Atoi], or the listing for the group fails. *)
Theorem PreFilter_error_iff cs pod calls :
  exists st calls',
    PreFilter cs pod calls = Some (None, st, calls')
    /\ (framework.StatusCode st = framework.Error <->
        v1.Labels pod !! groupNameLabel = None
        \/ v1.Labels pod !! minAvailableLabel = None
        \/ (exists minAvailableStr e,
              v1.Labels pod !! minAvailableLabel = Some minAvailableStr
              /\ strconv.Atoi minAvailableStr = Err e)
        \/ (exists group err,
              v1.Labels pod !! groupNameLabel = Some group
              /\ framework.PodLister (handle cs) {[ groupNameLabel := group ]}
                 = Err err)).
Proof.
  destruct (v1.Labels pod !! groupNameLabel) as [group|] eqn:Hg;
    [destruct (v1.Labels pod !! minAvailableLabel) as [minAvailableStr|] eqn:Hm;
     [destruct (strconv.Atoi minAvailableStr) as [m|e] eqn:Ha|]|].
  - rewrite (PreFilter_parsed cs pod calls group minAvailableStr m Hg Hm Ha).
    do 2 eexists; split; [reflexivity|].
    destruct (framework.PodLister _ _) as [pods|err] eqn:Hl.
    + split.
      * destruct (len pods <? m); discriminate.
      * intros [? | [? | [(s & e & [= <-] & He) | (g & err & [= <-] & He)]]];
          try discriminate; congruence.
    + split; [|reflexivity]. intros _. do 3 right. exists group, err. by rewrite Hl.
  - unfold PreFilter. rewrite Hg, Hm, Ha.
    do 2 eexists; split; [reflexivity|]. split; [|reflexivity].
    intros _. do 2 right. left. eauto.
  - unfold PreFilter. rewrite Hg, Hm.
    do 2 eexists; split; [reflexivity|]. split; [|reflexivity]. auto.
  - unfold PreFilter. rewrite Hg.
    do 2 eexists; split; [reflexivity|]. split; [|reflexivity]. auto.
Qed.

(** [Score] always returns after exactly one lookup of the node and no
    listing.  The code is Error exactly when the lookup fails, and the
    score is then 0; otherwise the code is Success and the score of a
    memory within [int64] is within [int64]. *)
Theorem Score_outcomes cs pod nodeName calls :
  exists score st,
    Score cs pod nodeName calls
    = Some (score, st, calls ++ [framework.GetCall nodeName])
    /\ (framework.StatusCode st = framework.Error <->
        exists err, framework.NodeInfos (handle cs) nodeName = Err err)
    /\ (framework.StatusCode st = framework.Error -> score = 0)
    /\ (framework.StatusCode st <> framework.Error ->
        framework.StatusCode st = framework.Success)
    /\ (forall nodeInfo,
          framework.NodeInfos (handle cs) nodeName = Ok nodeInfo ->
          Int64.in_range (framework.Memory (framework.Allocatable nodeInfo)) ->
          Int64.in_range score).
Proof.
  destruct (framework.NodeInfos (handle cs) nodeName) as [nodeInfo|err] eqn:Hget.
  - rewrite (Score_found cs pod _ _ _ Hget).
    do 2 eexists; split; [reflexivity|]. simpl.
    split; [split; [discriminate|by intros [? ?]]|].
    split; [discriminate|]. split; [reflexivity|].
    intros ? [= <-] Hm.
    destruct (String.eqb _ leastMode); [apply wrap_in_range|].
    destruct (String.eqb _ mostMode); [exact Hm|].
    unfold Int64.in_range, Int64.MinInt64, Int64.MaxInt64. lia.
  - unfold Score, mbind, Exec_bind, exec_bind, framework.Get. rewrite Hget.
    do 2 eexists; split; [reflexivity|]. simpl.
    split; [split; eauto|]. split; [reflexivity|]. split; [done|]. discriminate.
Qed.

(** The order of the candidates does not matter: on a permutation of
    the vector every node gets the score it got before. *)
Theorem NormalizeScore_permutation cs pod scores scores' ws :
  Forall (fun ns => Int64.in_range (framework.Score ns)) scores ->
  scores ≡ₚ scores' ->
  exists m m',
    NormalizeScore cs pod {| elems := scores; stores := ws |}
    = Some (framework.NewStatus framework.Success "", m)
    /\ NormalizeScore cs pod {| elems := scores'; stores := ws |}
       = Some (framework.NewStatus framework.Success "", m')
    /\ elems m ≡ₚ elems m'
    /\ (forall s, normalized scores s = normalized scores' s).
Proof.
  intros Hr Hp. rewrite !NormalizeScore_run.
  do 2 eexists. do 2 (split; [reflexivity|]). cbn [elems].
  assert (Hmm : min_max scores' = min_max scores).
  { destruct scores as [|ns0 rest] eqn:Hs.
    - apply Permutation_nil_l in Hp. by rewrite Hp.
    - rewrite <- Hs in *. assert (Hnil : scores <> []) by (by rewrite Hs).
      destruct (min_max scores) as [mn mx] eqn:Hm.
      apply (min_max_char scores mn mx Hr Hnil) in Hm as Hchar.
      apply min_max_char.
      + by rewrite <- Hp.
      + intros ->. by apply Permutation_nil_r in Hp.
      + by rewrite <- Hp. }
  assert (Hn : forall s, normalized scores s = normalized scores' s).
  { intros s. unfold normalized. by rewrite Hmm. }
  split; [|exact Hn].
  change (with_Score (normalized scores) <$> scores
          ≡ₚ with_Score (normalized scores') <$> scores').
  replace (with_Score (normalized scores') <$> scores')
    with (with_Score (normalized scores) <$> scores').
  - by apply fmap_Permutation.
  - apply Forall_fmap_ext_1, Forall_forall. intros ns _.
    unfold with_Score. by rewrite Hn.
Qed.

Lemma NormalizeScore_permutation_witness :
  exists m m',
    NormalizeScore {| handle := host [] ∅; scoreMode := mostMode |}
      (labelled "g" "1")
      {| elems := [node "node-a" 1000; node "node-b" 2000; node "node-c" 1300];
         stores := [] |}
    = Some (framework.NewStatus framework.Success "", m)
    /\ NormalizeScore {| handle := host [] ∅; scoreMode := mostMode |}
         (labelled "g" "1")
         {| elems := [node "node-b" 2000; node "node-a" 1000; node "node-c" 1300];
            stores := [] |}
       = Some (framework.NewStatus framework.Success "", m')
    /\ elems m ≡ₚ elems m'
    /\ (forall s,
          normalized [node "node-a" 1000; node "node-b" 2000; node "node-c" 1300] s
          = normalized [node "node-b" 2000; node "node-a" 1000; node "node-c" 1300] s).
Proof.
  apply (NormalizeScore_permutation
           {| handle := host [] ∅; scoreMode := mostMode |} (labelled "g" "1")
           [node "node-a" 1000; node "node-b" 2000; node "node-c" 1300]
           [node "node-b" 2000; node "node-a" 1000; node "node-c" 1300] []).
  - repeat constructor; in_int64.
  - apply perm_swap.
Defined.
